(** * Uncertainty calibrators of chemprop: a shallow embedding

    This development embeds [chemprop/uncertainty/uncertainty_calibrator.py]
    (the three regression calibrators and their builder) and proves the
    properties its specification states about them.

    Numbers.  numpy's float64 values are idealised as real numbers ([R]):
    rounding is ignored and the special values nan and inf have no
    counterpart.  Where numpy would produce one of them (division by zero,
    square root of a negative number, logarithm of a non-positive number,
    a reduction over an empty axis) the embedding follows the total
    functions of the Reals library.

    Arrays.  A numpy array of at most two dimensions is an [ndarray]: a
    scalar, a list, or a list of rows.  Binary operations broadcast as numpy
    does and raise [ValueError] on incompatible shapes.

    Effects.  Python exceptions are the [Raise] outcomes of [result]; the
    constructor of a calibrator runs in the monad [M], which threads the
    object under construction together with a log of the constructor's
    steps, and keeps both when an exception is raised. *)

From Stdlib Require Import Reals Lra Lia ZArith List String Ascii Bool.
From Stdlib Require Import DecimalString.
From Stdlib Require Import Sorted.
Import ListNotations.

Local Open Scope string_scope.
Local Open Scope R_scope.

(** ** Exceptions and results *)

Inductive exn : Type :=
| ValueError (msg : string)
| NotImplementedError (msg : string)
| IndexError (msg : string)
| AttributeError (msg : string)
| AxisError (msg : string).

Inductive result (A : Type) : Type :=
| Ok (a : A)
| Raise (e : exn).

Arguments Ok {A} a.
Arguments Raise {A} e.

Definition rbind {A B : Type} (r : result A) (k : A -> result B) : result B :=
  match r with
  | Ok a => k a
  | Raise e => Raise e
  end.

Definition rmap {A B : Type} (f : A -> B) (r : result A) : result B :=
  rbind r (fun a => Ok (f a)).

Declare Scope result_scope.
Delimit Scope result_scope with result.
Notation "'let*' x ':=' r 'in' k" := (rbind r (fun x => k))
  (at level 10, x name, r at level 100, k at level 200) : result_scope.
Local Open Scope result_scope.

Fixpoint mapM {A B : Type} (f : A -> result B) (l : list A) : result (list B) :=
  match l with
  | [] => Ok []
  | x :: l' =>
      let* y := f x in
      let* ys := mapM f l' in
      Ok (y :: ys)
  end.

(** ** Strings: Python's [str] of an int, and substrings *)

(** [str(n)] for a Python int. *)
Definition str_int (n : Z) : string := NilZero.string_of_int (Z.to_int n).

(** [str(x)] for a value that is either [None] or a string. *)
Definition str_opt (x : option string) : string :=
  match x with
  | None => "None"
  | Some s => s
  end.

(** [contains s sub]: [sub in s] in Python. *)
Definition contains (s sub : string) : Prop :=
  exists pre post : string, s = pre ++ sub ++ post.

(** ** A fragment of numpy *)

Definition matrix : Type := list (list R).

Inductive ndarray : Type :=
| Scalar (x : R)
| Array1 (v : list R)
| Array2 (m : matrix).

(** Number of columns of a list of rows (numpy reads it off the first row). *)
Definition ncols (m : matrix) : nat := List.length (hd [] m).

Definition np_shape (a : ndarray) : list nat :=
  match a with
  | Scalar _ => []
  | Array1 v => [List.length v]
  | Array2 m => [List.length m; ncols m]
  end.

(** [np.array(rows)] for a list of rows; the empty list gives the
    one-dimensional empty array, as in numpy. *)
Definition np_array (rows : matrix) : ndarray :=
  match rows with
  | [] => Array1 []
  | _ :: _ => Array2 rows
  end.

(** Elementwise application of a unary function. *)
Definition np_map (f : R -> R) (a : ndarray) : ndarray :=
  match a with
  | Scalar x => Scalar (f x)
  | Array1 v => Array1 (map f v)
  | Array2 m => Array2 (map (map f) m)
  end.

Definition broadcast_error : exn :=
  ValueError "operands could not be broadcast together".

(** Broadcasting along one axis: equal lengths are paired off, an axis of
    length one is stretched, anything else is an error. *)
Definition broadcast {A B C : Type} (f : A -> B -> result C)
    (a : list A) (b : list B) : result (list C) :=
  match a with
  | [x] => mapM (f x) b
  | _ =>
      match b with
      | [y] => mapM (fun x => f x y) a
      | _ =>
          if Nat.eqb (List.length a) (List.length b)
          then mapM (fun xy => f (fst xy) (snd xy)) (combine a b)
          else Raise broadcast_error
      end
  end.

Definition broadcast1 (op : R -> R -> R) : list R -> list R -> result (list R) :=
  broadcast (fun x y => Ok (op x y)).

Definition broadcast2 (op : R -> R -> R) : matrix -> matrix -> result matrix :=
  broadcast (broadcast1 op).

(** A binary ufunc with numpy's broadcasting; a one-dimensional operand is
    aligned with the last axis of a two-dimensional one. *)
Definition np_binop (op : R -> R -> R) (a b : ndarray) : result ndarray :=
  match a, b with
  | Scalar x, _ => Ok (np_map (op x) b)
  | _, Scalar y => Ok (np_map (fun x => op x y) a)
  | Array1 u, Array1 v => rmap Array1 (broadcast1 op u v)
  | Array1 u, Array2 m => rmap Array2 (broadcast2 op [u] m)
  | Array2 m, Array1 v => rmap Array2 (broadcast2 op m [v])
  | Array2 m, Array2 n => rmap Array2 (broadcast2 op m n)
  end.

Definition np_add := np_binop Rplus.
Definition np_subtract := np_binop Rminus.
Definition np_multiply := np_binop Rmult.
Definition np_divide := np_binop Rdiv.

Definition np_sqrt : ndarray -> ndarray := np_map sqrt.
Definition np_abs : ndarray -> ndarray := np_map Rabs.
Definition np_log : ndarray -> ndarray := np_map ln.
Definition np_pi : R := PI.

(** [a ** 2]. *)
Definition np_square : ndarray -> ndarray := np_map (fun x => x ^ 2).

(** Column [j] of a list of rows, and the list of all columns. *)
Definition column (j : nat) (m : matrix) : list R :=
  map (fun row => nth j row 0) m.

Definition columns (m : matrix) : list (list R) :=
  map (fun j => column j m) (seq 0 (ncols m)).

(** A reduction along axis 0, with or without [keepdims]. *)
Definition np_reduce_axis0 (f : list R -> R) (keepdims : bool) (a : ndarray)
  : result ndarray :=
  match a with
  | Scalar _ => Raise (AxisError "axis 0 is out of bounds for array of dimension 0")
  | Array1 v => Ok (if keepdims then Array1 [f v] else Scalar (f v))
  | Array2 m =>
      let r := map f (columns m) in
      Ok (if keepdims then Array2 [r] else Array1 r)
  end.

Definition sum_list (l : list R) : R := fold_right Rplus 0 l.

Definition mean_list (l : list R) : R := sum_list l / INR (List.length l).

(** Population standard deviation, numpy's default ([ddof = 0]). *)
Definition std_list (l : list R) : R :=
  sqrt (mean_list (map (fun x => Rabs (x - mean_list l) ^ 2) l)).

(** [np.sum(a, axis=0)]. *)
Definition np_sum_axis0 : ndarray -> result ndarray :=
  np_reduce_axis0 sum_list false.

(** [np.std(a, axis=0, keepdims=True)]. *)
Definition np_std_axis0_keepdims : ndarray -> result ndarray :=
  np_reduce_axis0 std_list true.

(** Insertion sort on reals, used by the percentile. *)
Fixpoint insert_sorted (x : R) (l : list R) : list R :=
  match l with
  | [] => [x]
  | y :: l' => if Rle_dec x y then x :: l else y :: insert_sorted x l'
  end.

Fixpoint sort_list (l : list R) : list R :=
  match l with
  | [] => []
  | x :: l' => insert_sorted x (sort_list l')
  end.

(** The [q]-th percentile of a list, numpy's default method (linear
    interpolation between the two nearest order statistics): with [n]
    values the virtual index is [(n - 1) * q / 100]; its floor and the
    next index (clipped at [n - 1]) select the two order statistics and
    its fractional part weighs them.  [q] is an integer here, so floor and
    fraction are a division with remainder by 100. *)
Definition percentile_list (q : Z) (l : list R) : R :=
  let s := sort_list l in
  let n := Z.of_nat (List.length l) in
  let h := ((n - 1) * q)%Z in
  let lo := Z.to_nat (h / 100) in
  let hi := Nat.min (S lo) (List.length l - 1) in
  let gamma := IZR (h mod 100) / 100 in
  nth lo s 0 + (nth hi s 0 - nth lo s 0) * gamma.

(** [np.percentile(a, q, axis=0, keepdims=True)]. *)
Definition np_percentile_axis0_keepdims (a : ndarray) (q : Z) : result ndarray :=
  if ((0 <=? q) && (q <=? 100))%Z
  then np_reduce_axis0 (percentile_list q) true a
  else Raise (ValueError "Percentiles must be in the range [0, 100]").

(** [a.flatten()]. *)
Definition np_flatten (a : ndarray) : list R :=
  match a with
  | Scalar x => [x]
  | Array1 v => v
  | Array2 m => List.concat m
  end.

(** [v[0]] for a one-dimensional array. *)
Definition index0 (v : list R) : result R :=
  match v with
  | [] => Raise (IndexError "index 0 is out of bounds for axis 0 with size 0")
  | x :: _ => Ok x
  end.

(** ** Collaborators *)

(** The calibration dataset; only [targets()] is used. *)
Record MoleculeDataset : Type := mkMoleculeDataset {
  targets : matrix
}.

(** Modelled from the spec: [UncertaintyPredictor] lives in
    [uncertainty_predictor.py], which is not part of the sources at hand.
    The spec gives its surface: [get_uncal_preds()] and [get_uncal_vars()]
    return a matrix of shape (N, T), on which numpy arithmetic applies; in
    particular [uncal_vars / (num_models - 1)] is numpy's division. *)
Record UncertaintyPredictor : Type := mkUncertaintyPredictor {
  get_uncal_preds : matrix;
  get_uncal_vars : matrix
}.

(** ** The calibrator object *)

(** The three subclasses of [UncertaintyCalibrator]. *)
Inductive calibrator_class : Type :=
| ZScalingCalibrator
| TScalingCalibrator
| ZelikmanCalibrator.

(** The attributes of [self]; [None] is an attribute not set yet. *)
Record Calibrator : Type := mkCalibrator {
  calibration_data : option MoleculeDataset;
  regression_calibrator_metric : option string;
  interval_percentile : option Z;
  dataset_type : option string;
  num_models : option Z;
  calibration_predictor : option UncertaintyPredictor;
  scaling : option ndarray;
  label : option string
}.

(** A fresh object, before [__init__] has run. *)
Definition object : Calibrator :=
  mkCalibrator None None None None None None None None.

(** The steps of the constructor, in the order it takes them. *)
Inductive event : Type :=
| EvStoreConfiguration
| EvRaiseArgumentErrors
| EvBuildPredictor
| EvCalibrate.

Record state : Type := mkState {
  self : Calibrator;
  log : list event
}.

(** State and exceptions: a computation returns or raises, and hands on the
    state in both cases. *)
Definition M (A : Type) : Type := state -> result A * state.

Definition ret {A : Type} (a : A) : M A := fun st => (Ok a, st).

Definition bind {A B : Type} (c : M A) (k : A -> M B) : M B :=
  fun st =>
    match c st with
    | (Ok a, st') => k a st'
    | (Raise e, st') => (Raise e, st')
    end.

Definition raise {A : Type} (e : exn) : M A := fun st => (Raise e, st).

Definition lift {A : Type} (r : result A) : M A := fun st => (r, st).

Definition emit (e : event) : M unit :=
  fun st => (Ok tt, mkState (self st) (log st ++ [e])).

Definition setattr (f : Calibrator -> Calibrator) : M unit :=
  fun st => (Ok tt, mkState (f (self st)) (log st)).

(** [self.name]; reading an attribute that is not set raises. *)
Definition getattr {A : Type} (field : Calibrator -> option A) (name : string) : M A :=
  fun st =>
    match field (self st) with
    | Some a => (Ok a, st)
    | None => (Raise (AttributeError name), st)
    end.

Declare Scope monad_scope.
Delimit Scope monad_scope with monad.
Notation "x <- c ;; k" := (bind c (fun x => k))
  (at level 61, c at next level, right associativity) : monad_scope.
Notation "c ;; k" := (bind c (fun _ => k))
  (at level 61, right associativity) : monad_scope.
Local Open Scope monad_scope.

Definition set_calibration_predictor (p : UncertaintyPredictor) (c : Calibrator) : Calibrator :=
  mkCalibrator (calibration_data c) (regression_calibrator_metric c)
    (interval_percentile c) (dataset_type c) (num_models c)
    (Some p) (scaling c) (label c).

Definition set_scaling (s : ndarray) (c : Calibrator) : Calibrator :=
  mkCalibrator (calibration_data c) (regression_calibrator_metric c)
    (interval_percentile c) (dataset_type c) (num_models c)
    (calibration_predictor c) (Some s) (label c).

Definition set_label (l : string) (c : Calibrator) : Calibrator :=
  mkCalibrator (calibration_data c) (regression_calibrator_metric c)
    (interval_percentile c) (dataset_type c) (num_models c)
    (calibration_predictor c) (scaling c) (Some l).

(** ** Application of a fitted calibrator *)

(** [ZScalingCalibrator.apply_calibration]. *)
Definition ZScalingCalibrator_apply_calibration (uncal_predictor : UncertaintyPredictor)
  : M (matrix * ndarray) :=
  let uncal_preds := get_uncal_preds uncal_predictor in
  let uncal_vars := get_uncal_vars uncal_predictor in
  scaling_ <- getattr scaling "scaling" ;;
  cal_stdev <- lift (np_multiply (np_sqrt (np_array uncal_vars)) scaling_) ;;
  ret (uncal_preds, cal_stdev).

(** [TScalingCalibrator.apply_calibration]. *)
Definition TScalingCalibrator_apply_calibration (uncal_predictor : UncertaintyPredictor)
  : M (matrix * ndarray) :=
  let uncal_preds := get_uncal_preds uncal_predictor in
  let uncal_vars := get_uncal_vars uncal_predictor in
  num_models_ <- getattr num_models "num_models" ;;
  scaling_ <- getattr scaling "scaling" ;;
  cal_stdev <- lift (
    let* quotient := np_divide (np_array uncal_vars) (Scalar (IZR (num_models_ - 1))) in
    np_multiply (np_sqrt quotient) scaling_) ;;
  ret (uncal_preds, cal_stdev).

(** [ZelikmanCalibrator.apply_calibration]. *)
Definition ZelikmanCalibrator_apply_calibration (uncal_predictor : UncertaintyPredictor)
  : M (matrix * ndarray) :=
  let uncal_preds := get_uncal_preds uncal_predictor in
  let uncal_vars := get_uncal_vars uncal_predictor in
  scaling_ <- getattr scaling "scaling" ;;
  cal_stdev <- lift (np_multiply (np_sqrt (np_array uncal_vars)) scaling_) ;;
  ret (uncal_preds, cal_stdev).

Definition apply_calibration (cls : calibrator_class)
  : UncertaintyPredictor -> M (matrix * ndarray) :=
  match cls with
  | ZScalingCalibrator => ZScalingCalibrator_apply_calibration
  | TScalingCalibrator => TScalingCalibrator_apply_calibration
  | ZelikmanCalibrator => ZelikmanCalibrator_apply_calibration
  end.

(** ** Validation of the arguments *)

(** [UncertaintyCalibrator.raise_argument_errors]: the base class checks
    nothing. *)
Definition UncertaintyCalibrator_raise_argument_errors : M unit := ret tt.

(** [ZScalingCalibrator.raise_argument_errors]. *)
Definition ZScalingCalibrator_raise_argument_errors : M unit :=
  UncertaintyCalibrator_raise_argument_errors ;;
  dataset_type_ <- getattr dataset_type "dataset_type" ;;
  if negb (String.eqb dataset_type_ "regression")
  then raise (ValueError "Z Score Scaling is only compatible with regression datasets.")
  else ret tt.

(** [TScalingCalibrator.raise_argument_errors]. *)
Definition TScalingCalibrator_raise_argument_errors : M unit :=
  UncertaintyCalibrator_raise_argument_errors ;;
  dataset_type_ <- getattr dataset_type "dataset_type" ;;
  if negb (String.eqb dataset_type_ "regression")
  then raise (ValueError "T Score Scaling is only compatible with regression datasets.")
  else ret tt.

(** [ZelikmanCalibrator.raise_argument_errors]. *)
Definition ZelikmanCalibrator_raise_argument_errors : M unit :=
  UncertaintyCalibrator_raise_argument_errors ;;
  dataset_type_ <- getattr dataset_type "dataset_type" ;;
  if negb (String.eqb dataset_type_ "regression")
  then raise (ValueError "Crude Scaling is only compatible with regression datasets.")
  else ret tt.

Definition raise_argument_errors (cls : calibrator_class) : M unit :=
  match cls with
  | ZScalingCalibrator => ZScalingCalibrator_raise_argument_errors
  | TScalingCalibrator => TScalingCalibrator_raise_argument_errors
  | ZelikmanCalibrator => ZelikmanCalibrator_raise_argument_errors
  end.

(** ** Fitting, construction and the builder *)

Section Calibrators.

(** The model ensemble and the output scalers are passed through to the
    predictor builder; only the number of models is looked at. *)
Variables MoleculeModel StandardScaler : Type.

(** The keyword arguments shared by the three constructors and the builder. *)
Record kwargs : Type := mkKwargs {
  arg_uncertainty_method : string;
  arg_interval_percentile : Z;
  arg_regression_calibrator_metric : string;
  arg_calibration_data : MoleculeDataset;
  arg_models : list MoleculeModel;
  arg_scalers : list StandardScaler;
  arg_dataset_type : string;
  arg_loss_function : string;
  arg_batch_size : Z;
  arg_num_workers : Z
}.

(** [uncertainty_predictor_builder(test_data, models, scalers, dataset_type,
    batch_size, num_workers, loss_function, uncertainty_method)], from
    [uncertainty_predictor.py]. *)
Variable uncertainty_predictor_builder :
  MoleculeDataset -> list MoleculeModel -> list StandardScaler -> string ->
  Z -> Z -> string -> string -> result UncertaintyPredictor.

(** [scipy.optimize.fmin(func, x0)]: the downhill simplex minimiser.  It
    flattens [x0], calls [func] on one-dimensional arrays and returns the
    point it stops at as a one-dimensional array, or raises (as it does
    when [func] returns more than one number).  Nothing else is assumed
    about it. *)
Variable fmin : (ndarray -> result ndarray) -> ndarray -> result (list R).

(** [scipy.special.erfinv]. *)
Variable erfinv : R -> R.

(** [scipy.stats.t.pdf(x, df, scale=scale)] and [scipy.stats.t.ppf(q, df)]. *)
Variable t_pdf : R -> R -> R -> R.
Variable t_ppf : R -> R -> R.

(** [ZScalingCalibrator.calibrate]. *)
Definition ZScalingCalibrator_calibrate : M unit :=
  calibration_predictor_ <- getattr calibration_predictor "calibration_predictor" ;;
  let uncal_preds := np_array (get_uncal_preds calibration_predictor_) in
  let uncal_vars := np_array (get_uncal_vars calibration_predictor_) in
  calibration_data_ <- getattr calibration_data "calibration_data" ;;
  let targets_ := np_array (targets calibration_data_) in
  errors <- lift (np_subtract uncal_preds targets_) ;;
  zscore_preds <- lift (np_divide errors (np_sqrt uncal_vars)) ;;
  let objective (scaler_values : ndarray) : result ndarray :=
    let* scaled_vars := np_multiply uncal_vars (np_square scaler_values) in
    let* quadratic :=
      np_divide (np_square errors) (np_map (fun x => 2 * x) scaled_vars) in
    let* nll :=
      np_add (np_map (fun x => x / 2)
                (np_log (np_map (fun x => 2 * np_pi * x) scaled_vars)))
             quadratic in
    np_sum_axis0 nll in
  initial_guess <- lift (np_std_axis0_keepdims zscore_preds) ;;
  sol <- lift (fmin objective initial_guess) ;;
  stdev_scaling <- lift (index0 sol) ;;
  regression_calibrator_metric_ <-
    getattr regression_calibrator_metric "regression_calibrator_metric" ;;
  if String.eqb regression_calibrator_metric_ "stdev"
  then setattr (set_scaling (Scalar stdev_scaling))
  else
    interval_percentile_ <- getattr interval_percentile "interval_percentile" ;;
    let interval_scaling :=
      stdev_scaling * erfinv (IZR interval_percentile_ / 100) * sqrt 2 in
    setattr (set_scaling (Scalar interval_scaling)).

(** [TScalingCalibrator.calibrate]. *)
Definition TScalingCalibrator_calibrate : M unit :=
  calibration_predictor_ <- getattr calibration_predictor "calibration_predictor" ;;
  let uncal_preds := np_array (get_uncal_preds calibration_predictor_) in
  let uncal_vars := np_array (get_uncal_vars calibration_predictor_) in
  num_models_ <- getattr num_models "num_models" ;;
  quotient <- lift (np_divide uncal_vars (Scalar (IZR (num_models_ - 1)))) ;;
  let std_error_of_mean := np_sqrt quotient in
  calibration_data_ <- getattr calibration_data "calibration_data" ;;
  let targets_ := np_array (targets calibration_data_) in
  errors <- lift (np_subtract uncal_preds targets_) ;;
  tscore_preds <- lift (np_divide errors std_error_of_mean) ;;
  let objective (scaler_values : ndarray) : result ndarray :=
    let* scaled_std := np_multiply std_error_of_mean scaler_values in
    let* likelihood :=
      np_binop (fun x scale => t_pdf x (IZR (num_models_ - 1)) scale)
        errors scaled_std in
    np_sum_axis0 (np_map (fun x => -1 * x) (np_log likelihood)) in
  initial_guess <- lift (np_std_axis0_keepdims tscore_preds) ;;
  sol <- lift (fmin objective initial_guess) ;;
  stdev_scaling <- lift (index0 sol) ;;
  regression_calibrator_metric_ <-
    getattr regression_calibrator_metric "regression_calibrator_metric" ;;
  if String.eqb regression_calibrator_metric_ "stdev"
  then setattr (set_scaling (Scalar stdev_scaling))
  else
    interval_percentile_ <- getattr interval_percentile "interval_percentile" ;;
    let interval_scaling :=
      stdev_scaling *
      t_ppf ((IZR interval_percentile_ / 100 + 1) / 2) (IZR (num_models_ - 1)) in
    setattr (set_scaling (Scalar interval_scaling)).

(** [ZelikmanCalibrator.calibrate]. *)
Definition ZelikmanCalibrator_calibrate : M unit :=
  calibration_predictor_ <- getattr calibration_predictor "calibration_predictor" ;;
  let uncal_preds := np_array (get_uncal_preds calibration_predictor_) in
  let uncal_vars := np_array (get_uncal_vars calibration_predictor_) in
  calibration_data_ <- getattr calibration_data "calibration_data" ;;
  let targets_ := np_array (targets calibration_data_) in
  difference <- lift (np_subtract uncal_preds targets_) ;;
  abs_zscore_preds <- lift (np_divide (np_abs difference) (np_sqrt uncal_vars)) ;;
  interval_percentile_ <- getattr interval_percentile "interval_percentile" ;;
  interval_scaling <-
    lift (np_percentile_axis0_keepdims abs_zscore_preds interval_percentile_) ;;
  setattr (set_scaling interval_scaling).

Definition calibrate (cls : calibrator_class) : M unit :=
  match cls with
  | ZScalingCalibrator => ZScalingCalibrator_calibrate
  | TScalingCalibrator => TScalingCalibrator_calibrate
  | ZelikmanCalibrator => ZelikmanCalibrator_calibrate
  end.

(** [UncertaintyCalibrator.__init__], run for an object of class [cls]. *)
Definition UncertaintyCalibrator_init (cls : calibrator_class) (kw : kwargs) : M unit :=
  emit EvStoreConfiguration ;;
  setattr (fun c =>
    mkCalibrator
      (Some (arg_calibration_data kw))
      (Some (arg_regression_calibrator_metric kw))
      (Some (arg_interval_percentile kw))
      (Some (arg_dataset_type kw))
      (Some (Z.of_nat (List.length (arg_models kw))))
      (calibration_predictor c) (scaling c) (label c)) ;;
  emit EvRaiseArgumentErrors ;;
  raise_argument_errors cls ;;
  emit EvBuildPredictor ;;
  predictor <- lift (uncertainty_predictor_builder
                       (arg_calibration_data kw) (arg_models kw) (arg_scalers kw)
                       (arg_dataset_type kw) (arg_batch_size kw) (arg_num_workers kw)
                       (arg_loss_function kw) (arg_uncertainty_method kw)) ;;
  setattr (set_calibration_predictor predictor) ;;
  emit EvCalibrate ;;
  calibrate cls.

(** [ZScalingCalibrator.__init__]. *)
Definition ZScalingCalibrator_init (kw : kwargs) : M unit :=
  UncertaintyCalibrator_init ZScalingCalibrator kw ;;
  regression_calibrator_metric_ <-
    getattr regression_calibrator_metric "regression_calibrator_metric" ;;
  if String.eqb regression_calibrator_metric_ "stdev"
  then setattr (set_label (arg_uncertainty_method kw ++ "_zscaling_stdev"))
  else setattr (set_label (arg_uncertainty_method kw ++ "_zscaling_" ++
                           str_int (arg_interval_percentile kw) ++ "interval")).

(** [TScalingCalibrator.__init__]. *)
Definition TScalingCalibrator_init (kw : kwargs) : M unit :=
  UncertaintyCalibrator_init TScalingCalibrator kw ;;
  regression_calibrator_metric_ <-
    getattr regression_calibrator_metric "regression_calibrator_metric" ;;
  if String.eqb regression_calibrator_metric_ "stdev"
  then setattr (set_label (arg_uncertainty_method kw ++ "_tscaling_stdev"))
  else setattr (set_label (arg_uncertainty_method kw ++ "_tscaling_" ++
                           str_int (arg_interval_percentile kw) ++ "interval")).

(** [ZelikmanCalibrator.__init__]. *)
Definition ZelikmanCalibrator_init (kw : kwargs) : M unit :=
  UncertaintyCalibrator_init ZelikmanCalibrator kw ;;
  setattr (set_label (arg_uncertainty_method kw ++ "_zelikman_" ++
                      str_int (arg_interval_percentile kw) ++ "interval")).

Definition init (cls : calibrator_class) : kwargs -> M unit :=
  match cls with
  | ZScalingCalibrator => ZScalingCalibrator_init
  | TScalingCalibrator => TScalingCalibrator_init
  | ZelikmanCalibrator => ZelikmanCalibrator_init
  end.

(** Running the constructor on a fresh object: the outcome together with
    the object as the constructor left it and the steps it took. *)
Definition construct (cls : calibrator_class) (kw : kwargs) : result unit * state :=
  init cls kw (mkState object []).

(** The expression [cls(...)]: the object, unless the constructor raised. *)
Definition new (cls : calibrator_class) (kw : kwargs) : result Calibrator :=
  match construct cls kw with
  | (Ok _, st) => Ok (self st)
  | (Raise e, _) => Raise e
  end.

(** The registry of the builder, in the order of the dictionary literal. *)
Definition supported_calibrators : list (string * calibrator_class) :=
  [ ("zscaling", ZScalingCalibrator);
    ("tscaling", TScalingCalibrator);
    ("zelikman_interval", ZelikmanCalibrator) ].

(** [supported_calibrators.get(key, None)]; [None] is not a key. *)
Definition dict_get (d : list (string * calibrator_class)) (key : option string)
  : option calibrator_class :=
  match key with
  | None => None
  | Some k =>
      match find (fun entry => String.eqb (fst entry) k) d with
      | Some entry => Some (snd entry)
      | None => None
      end
  end.

(** [str(d.keys())]. *)
Definition str_dict_keys (d : list (string * calibrator_class)) : string :=
  "dict_keys([" ++
  String.concat ", " (map (fun entry => "'" ++ fst entry ++ "'") d) ++
  "])".

(** The calibration method after the default has been filled in. *)
Definition resolve_calibration_method (calibration_method : option string)
    (kw : kwargs) : option string :=
  match calibration_method with
  | None =>
      if String.eqb (arg_dataset_type kw) "regression"
      then
        if String.eqb (arg_regression_calibrator_metric kw) "stdev"
        then Some "zscaling"
        else Some "zelikman_interval"
      else None
  | Some _ => calibration_method
  end.

(** [uncertainty_calibrator_builder]. *)
Definition uncertainty_calibrator_builder (calibration_method : option string)
    (kw : kwargs) : result Calibrator :=
  let calibration_method := resolve_calibration_method calibration_method kw in
  let calibrator_class_ := dict_get supported_calibrators calibration_method in
  match calibrator_class_ with
  | None =>
      Raise (NotImplementedError (
        "Calibrator type " ++ str_opt calibration_method ++
        " is not currently supported. Avalable options are: " ++
        str_dict_keys supported_calibrators))
  | Some cls => new cls kw
  end.


(** The same arguments with another calibration metric. *)
Definition with_metric (metric : string) (kw : kwargs) : kwargs :=
  mkKwargs (arg_uncertainty_method kw) (arg_interval_percentile kw) metric
    (arg_calibration_data kw) (arg_models kw) (arg_scalers kw)
    (arg_dataset_type kw) (arg_loss_function kw) (arg_batch_size kw)
    (arg_num_workers kw).

(** The object once [__init__] has stored the configuration. *)
Definition configured (kw : kwargs) : Calibrator :=
  mkCalibrator
    (Some (arg_calibration_data kw))
    (Some (arg_regression_calibrator_metric kw))
    (Some (arg_interval_percentile kw))
    (Some (arg_dataset_type kw))
    (Some (Z.of_nat (List.length (arg_models kw))))
    None None None.

(** The constructor stopped in [raise_argument_errors]: it raised, and the
    log ends with the validation step. *)
Definition rejected_by_validation (outcome : result unit * state) : Prop :=
  (exists msg, fst outcome = Raise (ValueError msg)) /\
  log (snd outcome) = [EvStoreConfiguration; EvRaiseArgumentErrors].

(** The message each class raises for a dataset that is not a regression
    dataset. *)
Definition regression_only_message (cls : calibrator_class) : string :=
  match cls with
  | ZScalingCalibrator => "Z Score Scaling is only compatible with regression datasets."
  | TScalingCalibrator => "T Score Scaling is only compatible with regression datasets."
  | ZelikmanCalibrator => "Crude Scaling is only compatible with regression datasets."
  end.

(** The shape of the scaling a computation has stored, if it returned. *)
Definition fitted_shape (outcome : result unit * state) : option (list nat) :=
  match outcome with
  | (Ok _, st) => option_map np_shape (scaling (self st))
  | (Raise _, _) => None
  end.

(** A calibration set with two examples and two tasks, ready for
    [calibrate]: predictions, variances and targets of shape (2, 2). *)
Definition two_task_predictor : UncertaintyPredictor :=
  mkUncertaintyPredictor [[1; 2]; [3; 5]] [[1; 4]; [1; 4]].

Definition two_task_data : MoleculeDataset :=
  mkMoleculeDataset [[0; 0]; [1; 1]].

Definition two_task_state : state :=
  mkState
    (mkCalibrator (Some two_task_data) (Some "stdev") (Some 95%Z)
       (Some "regression") (Some 5%Z) (Some two_task_predictor) None None)
    [EvStoreConfiguration; EvRaiseArgumentErrors; EvBuildPredictor; EvCalibrate].

(** The evaluation predictor with every raw variance multiplied by [k]. *)
Definition scale_variances (k : R) (p : UncertaintyPredictor) : UncertaintyPredictor :=
  mkUncertaintyPredictor (get_uncal_preds p) (map (map (Rmult k)) (get_uncal_vars p)).

(** The result of [apply_calibration] with every spread multiplied by [k]. *)
Definition scale_spread (k : R) (out : matrix * ndarray) : matrix * ndarray :=
  (fst out, np_map (Rmult k) (snd out)).

(** The label the constructor of class [cls] sets. *)
Definition label_of (cls : calibrator_class) (kw : kwargs) : string :=
  match cls with
  | ZScalingCalibrator =>
      if String.eqb (arg_regression_calibrator_metric kw) "stdev"
      then arg_uncertainty_method kw ++ "_zscaling_stdev"
      else arg_uncertainty_method kw ++ "_zscaling_" ++
           str_int (arg_interval_percentile kw) ++ "interval"
  | TScalingCalibrator =>
      if String.eqb (arg_regression_calibrator_metric kw) "stdev"
      then arg_uncertainty_method kw ++ "_tscaling_stdev"
      else arg_uncertainty_method kw ++ "_tscaling_" ++
           str_int (arg_interval_percentile kw) ++ "interval"
  | ZelikmanCalibrator =>
      arg_uncertainty_method kw ++ "_zelikman_" ++
      str_int (arg_interval_percentile kw) ++ "interval"
  end.

(** The state in which the constructor enters [calibrate]. *)
Definition ready_to_calibrate (kw : kwargs) (predictor : UncertaintyPredictor) : state :=
  mkState (set_calibration_predictor predictor (configured kw))
    [EvStoreConfiguration; EvRaiseArgumentErrors; EvBuildPredictor; EvCalibrate].

(** Entry [(i, j)] of a list of rows. *)
Definition entry (m : matrix) (i j : nat) : R := nth j (nth i m []) 0.

(** [m] has [N] rows of [T] entries each. *)
Definition has_shape (N T : nat) (m : matrix) : Prop :=
  List.length m = N /\ Forall (fun row => List.length row = T) m.

(** Two lists, resp. two lists of rows, combined entry by entry. *)
Definition zip_with (op : R -> R -> R) (u v : list R) : list R :=
  map (fun xy => op (fst xy) (snd xy)) (combine u v).

Definition zip_with2 (op : R -> R -> R) (a b : matrix) : matrix :=
  map (fun uv => zip_with op (fst uv) (snd uv)) (combine a b).

(** The absolute z-score of calibration example [i] on task [t], in the
    spec's words: |prediction - target| / sqrt(raw variance). *)
Definition spec_abs_zscore (preds targets_ vars : matrix) (i t : nat) : R :=
  Rabs (entry preds i t - entry targets_ i t) / sqrt (entry vars i t).

(** The scaling of the Zelikman calibrator in the spec's words: for each of
    the [T] tasks, the [q]-th percentile of the absolute z-scores of the
    [N] calibration examples; stored as one row. *)
Definition spec_zelikman_scaling (N T : nat) (preds targets_ vars : matrix) (q : Z)
  : ndarray :=
  Array2 [map (fun t =>
                 percentile_list q
                   (map (fun i => spec_abs_zscore preds targets_ vars i t) (seq 0 N)))
              (seq 0 T)].

(** The multiplier that turns a stdev-mode scaling into the interval-mode
    scaling of class [cls]. *)
Definition interval_multiplier (cls : calibrator_class) (kw : kwargs) : R :=
  match cls with
  | ZScalingCalibrator =>
      sqrt 2 * erfinv (IZR (arg_interval_percentile kw) / 100)
  | TScalingCalibrator =>
      t_ppf ((IZR (arg_interval_percentile kw) / 100 + 1) / 2)
            (IZR (Z.of_nat (List.length (arg_models kw)) - 1))
  | ZelikmanCalibrator => 1
  end.

(** Every entry of an array satisfies [P]. *)
Definition np_all (P : R -> Prop) (a : ndarray) : Prop :=
  match a with
  | Scalar x => P x
  | Array1 v => Forall P v
  | Array2 m => Forall (Forall P) m
  end.

(** ** Properties *)

(** Unfolds the primitives of [M], so that a computation applied to a state
    reduces. *)
Ltac unfold_M :=
  unfold bind, emit, setattr, getattr, lift, ret, raise in *.

Ltac unfold_validation :=
  unfold raise_argument_errors, ZScalingCalibrator_raise_argument_errors,
    TScalingCalibrator_raise_argument_errors,
    ZelikmanCalibrator_raise_argument_errors,
    UncertaintyCalibrator_raise_argument_errors in *.

(** The constructor up to the point where [calibrate] is entered. *)
Lemma UncertaintyCalibrator_init_unfold (cls : calibrator_class) (kw : kwargs) :
  UncertaintyCalibrator_init cls kw (mkState object []) =
    if String.eqb (arg_dataset_type kw) "regression"
    then
      match uncertainty_predictor_builder
              (arg_calibration_data kw) (arg_models kw) (arg_scalers kw)
              (arg_dataset_type kw) (arg_batch_size kw) (arg_num_workers kw)
              (arg_loss_function kw) (arg_uncertainty_method kw)
      with
      | Ok predictor =>
          calibrate cls
            (mkState (set_calibration_predictor predictor (configured kw))
               [EvStoreConfiguration; EvRaiseArgumentErrors;
                EvBuildPredictor; EvCalibrate])
      | Raise e =>
          (Raise e,
           mkState (configured kw)
             [EvStoreConfiguration; EvRaiseArgumentErrors; EvBuildPredictor])
      end
    else
      (Raise (ValueError (regression_only_message cls)),
       mkState (configured kw) [EvStoreConfiguration; EvRaiseArgumentErrors]).
Proof.
  unfold UncertaintyCalibrator_init.
  destruct cls; unfold_validation; unfold_M; cbn;
    destruct (String.eqb (arg_dataset_type kw) "regression"); cbn;
    try reflexivity;
    destruct (uncertainty_predictor_builder _ _ _ _ _ _ _ _); reflexivity.
Qed.

Lemma construct_not_regression (cls : calibrator_class) (kw : kwargs) :
  arg_dataset_type kw <> "regression" ->
  construct cls kw =
    (Raise (ValueError (regression_only_message cls)),
     mkState (configured kw) [EvStoreConfiguration; EvRaiseArgumentErrors]).
Proof.
  intros Hd. apply String.eqb_neq in Hd.
  unfold construct.
  destruct cls; cbn [init];
    unfold ZScalingCalibrator_init, TScalingCalibrator_init, ZelikmanCalibrator_init;
    unfold bind at 1; rewrite UncertaintyCalibrator_init_unfold, Hd; reflexivity.
Qed.

(** C6.  A dataset type other than 'regression' makes the constructor of
    each of the three classes raise a [ValueError] in
    [raise_argument_errors]: the predictor builder is not called, [calibrate]
    is not entered, and the object is left with its configuration only (no
    predictor, no scaling, no label); the expression [cls(...)] raises. *)
Theorem dataset_type_mismatch_rejected :
  forall (cls : calibrator_class) (kw : kwargs),
    arg_dataset_type kw <> "regression" ->
    exists (msg : string) (st : state),
      construct cls kw = (Raise (ValueError msg), st) /\
      new cls kw = Raise (ValueError msg) /\
      log st = [EvStoreConfiguration; EvRaiseArgumentErrors] /\
      ~ In EvBuildPredictor (log st) /\
      ~ In EvCalibrate (log st) /\
      calibration_predictor (self st) = None /\
      scaling (self st) = None /\
      label (self st) = None.
Proof.
  intros cls kw Hd.
  pose proof (construct_not_regression cls kw Hd) as Hc.
  eexists; eexists. split; [exact Hc|].
  unfold new. rewrite Hc. cbn.
  repeat split; try reflexivity.
  - intros [H|[H|[]]]; discriminate H.
  - intros [H|[H|[]]]; discriminate H.
Qed.

(** *** Substrings *)

Lemma string_append_assoc (a b c : string) : (a ++ b) ++ c = a ++ b ++ c.
Proof. induction a as [|ch a IH]; cbn; [reflexivity | now rewrite IH]. Qed.

Lemma contains_append_l (p s sub : string) :
  contains s sub -> contains (p ++ s) sub.
Proof.
  intros (pre & post & ->).
  exists (p ++ pre), post.
  now rewrite string_append_assoc.
Qed.

Lemma contains_prefix (sub post : string) : contains (sub ++ post) sub.
Proof. now exists "", post. Qed.

(** *** The builder *)

Lemma dict_get_supported (name : string) :
  name <> "zscaling" -> name <> "tscaling" -> name <> "zelikman_interval" ->
  dict_get supported_calibrators (Some name) = None.
Proof.
  intros H1 H2 H3. unfold dict_get, supported_calibrators. cbn [find fst snd].
  rewrite !(String.eqb_sym _ name).
  apply String.eqb_neq in H1, H2, H3.
  now rewrite H1, H2, H3.
Qed.

(** C9.  A strategy name outside the registry makes the builder raise a
    [NotImplementedError] whose message names the offending value and lists
    'zscaling', 'tscaling' and 'zelikman_interval'; with no strategy name
    and a regression dataset the builder constructs a [ZScalingCalibrator]
    when the metric is 'stdev' and a [ZelikmanCalibrator] otherwise. *)
Theorem builder_unknown_strategy_and_default (kw : kwargs) :
  (forall name : string,
     name <> "zscaling" -> name <> "tscaling" -> name <> "zelikman_interval" ->
     exists msg : string,
       uncertainty_calibrator_builder (Some name) kw =
         Raise (NotImplementedError msg) /\
       contains msg name /\
       contains msg "zscaling" /\
       contains msg "tscaling" /\
       contains msg "zelikman_interval") /\
  (arg_dataset_type kw = "regression" ->
     resolve_calibration_method None kw =
       Some (if String.eqb (arg_regression_calibrator_metric kw) "stdev"
             then "zscaling" else "zelikman_interval") /\
     uncertainty_calibrator_builder None kw =
       if String.eqb (arg_regression_calibrator_metric kw) "stdev"
       then new ZScalingCalibrator kw
       else new ZelikmanCalibrator kw).
Proof.
  split.
  - intros name H1 H2 H3.
    unfold uncertainty_calibrator_builder.
    cbn [resolve_calibration_method].
    rewrite (dict_get_supported name H1 H2 H3).
    eexists. split; [reflexivity|].
    cbn [str_opt]. repeat split.
    + apply contains_append_l, contains_prefix.
    + do 2 apply contains_append_l.
      now exists " is not currently supported. Avalable options are: dict_keys(['",
                 "', 'tscaling', 'zelikman_interval'])".
    + do 2 apply contains_append_l.
      now exists " is not currently supported. Avalable options are: dict_keys(['zscaling', '",
                 "', 'zelikman_interval'])".
    + do 2 apply contains_append_l.
      now exists " is not currently supported. Avalable options are: dict_keys(['zscaling', 'tscaling', '",
                 "'])".
  - intros Hd.
    unfold uncertainty_calibrator_builder, resolve_calibration_method.
    rewrite Hd. cbn [String.eqb Ascii.eqb Bool.eqb].
    destruct (String.eqb (arg_regression_calibrator_metric kw) "stdev");
      split; reflexivity.
Qed.

(** C10.  With no strategy name and a dataset type other than 'regression'
    no default is chosen: the method stays [None], the registry has no such
    key, and the builder raises the [NotImplementedError] for calibrator
    type None without constructing a calibrator. *)
Theorem builder_no_default_outside_regression (kw : kwargs) :
  arg_dataset_type kw <> "regression" ->
  resolve_calibration_method None kw = None /\
  dict_get supported_calibrators (resolve_calibration_method None kw) = None /\
  uncertainty_calibrator_builder None kw =
    Raise (NotImplementedError
      "Calibrator type None is not currently supported. Avalable options are: dict_keys(['zscaling', 'tscaling', 'zelikman_interval'])").
Proof.
  intros Hd. apply String.eqb_neq in Hd.
  unfold uncertainty_calibrator_builder, resolve_calibration_method.
  rewrite Hd. repeat split.
Qed.


(** *** What [calibrate] touches *)

Ltac unfold_calibrate :=
  unfold calibrate, ZScalingCalibrator_calibrate, TScalingCalibrator_calibrate,
    ZelikmanCalibrator_calibrate in *.

(** Case analysis on every test a computation makes on its way. *)
Ltac split_matches :=
  repeat (match goal with
          | |- context [match ?x with _ => _ end] =>
              lazymatch x with
              | context [match _ with _ => _ end] => fail
              | _ => destruct x eqn:?
              end
          end; cbn [self log fst snd]).

(** [calibrate] writes [self.scaling] when it returns and nothing when it
    raises; it never touches the log. *)
Lemma calibrate_frame (cls : calibrator_class) (st : state) :
  (exists s : ndarray,
     calibrate cls st = (Ok tt, mkState (set_scaling s (self st)) (log st))) \/
  (exists e : exn, calibrate cls st = (Raise e, st)).
Proof.
  destruct st as [c l].
  destruct cls; unfold_calibrate; unfold_M; cbn [self log];
    split_matches;
    solve [ right; eexists; reflexivity | left; eexists; reflexivity ].
Qed.


Ltac unfold_init :=
  unfold construct, init, ZScalingCalibrator_init, TScalingCalibrator_init,
    ZelikmanCalibrator_init in *.

(** Setting the label adds no step to the log. *)
Lemma construct_log (cls : calibrator_class) (kw : kwargs) :
  log (snd (construct cls kw)) =
  log (snd (UncertaintyCalibrator_init cls kw (mkState object []))).
Proof.
  unfold construct.
  destruct cls; cbn [init]; unfold_init; unfold bind at 1;
    destruct (UncertaintyCalibrator_init _ kw (mkState object [])) as [[[]|e] st];
    try reflexivity; unfold_M; split_matches; reflexivity.
Qed.

(** On a regression dataset the constructor gets past validation and calls
    the predictor builder, whatever the other arguments are. *)
Lemma construct_regression_log (cls : calibrator_class) (kw : kwargs) :
  arg_dataset_type kw = "regression" ->
  exists rest : list event,
    log (snd (construct cls kw)) =
    EvStoreConfiguration :: EvRaiseArgumentErrors :: EvBuildPredictor :: rest.
Proof.
  intros Hd. rewrite construct_log, UncertaintyCalibrator_init_unfold, Hd.
  cbn [String.eqb Ascii.eqb Bool.eqb].
  destruct (uncertainty_predictor_builder _ _ _ _ _ _ _ _) as [p|e].
  - match goal with |- context [calibrate cls ?st] =>
      destruct (calibrate_frame cls st) as [[s ->]|[e ->]]
    end; cbn; eexists; reflexivity.
  - cbn. eexists; reflexivity.
Qed.

Lemma np_binop_scalar_r (op : R -> R -> R) (a : ndarray) (y : R) :
  np_binop op a (Scalar y) = Ok (np_map (fun x => op x y) a).
Proof. destruct a; reflexivity. Qed.

Lemma np_divide_scalar (a : ndarray) (d : R) :
  np_divide a (Scalar d) = Ok (np_map (fun x => x / d) a).
Proof. apply np_binop_scalar_r. Qed.

(** C2, as amended.  The validation of [TScalingCalibrator] looks at the
    dataset type only: the constructor is stopped in [raise_argument_errors]
    exactly when the dataset type is not 'regression'.  [num_models] is not
    validated: on a regression dataset the constructor goes on to the
    predictor builder whatever the number of models.  The division by
    [num_models - 1] is numpy's array division, which raises nothing. *)
Theorem TScaling_validation_checks_dataset_type_only (kw : kwargs) :
  (rejected_by_validation (construct TScalingCalibrator kw) <->
   arg_dataset_type kw <> "regression") /\
  (arg_dataset_type kw = "regression" ->
   exists rest : list event,
     log (snd (construct TScalingCalibrator kw)) =
     EvStoreConfiguration :: EvRaiseArgumentErrors :: EvBuildPredictor :: rest) /\
  (forall (a : ndarray) (n : Z),
     np_divide a (Scalar (IZR (n - 1))) = Ok (np_map (fun x => x / IZR (n - 1)) a)).
Proof.
  split; [|split].
  - split.
    + intros [_ Hlog] Hd.
      destruct (construct_regression_log TScalingCalibrator kw Hd) as [rest Hrest].
      rewrite Hrest in Hlog. discriminate Hlog.
    + intros Hd. rewrite (construct_not_regression _ _ Hd).
      split; [eexists|]; reflexivity.
  - apply construct_regression_log.
  - intros a n. apply np_divide_scalar.
Qed.


(** *** The shape of the fitted scaling *)

(** Whatever the calibration data and the minimiser, the scaling that
    [ZScalingCalibrator.calibrate] and [TScalingCalibrator.calibrate] store
    is [sol[0]], possibly times a factor: a scalar. *)
Lemma calibrate_stores_scalar (cls : calibrator_class) (st : state) :
  cls <> ZelikmanCalibrator ->
  fitted_shape (calibrate cls st) = None \/
  fitted_shape (calibrate cls st) = Some [].
Proof.
  intros Hcls. destruct st as [c l].
  destruct cls; [| |congruence];
    unfold_calibrate; unfold_M; cbn [self log];
    split_matches; cbn; auto.
Qed.

(** C1, on a calibration set with T = 2 tasks.  [ZScalingCalibrator.calibrate]
    and [TScalingCalibrator.calibrate] either raise or store a scaling of
    shape () - one number, not one per task - whatever the minimiser returns;
    [ZelikmanCalibrator.calibrate] stores a scaling of shape (1, 2) on the
    same data. *)
Theorem two_task_scaling_shapes :
  np_shape (np_array (get_uncal_preds two_task_predictor)) = [2; 2]%nat /\
  (fitted_shape (calibrate ZScalingCalibrator two_task_state) = None \/
   fitted_shape (calibrate ZScalingCalibrator two_task_state) = Some []) /\
  (fitted_shape (calibrate TScalingCalibrator two_task_state) = None \/
   fitted_shape (calibrate TScalingCalibrator two_task_state) = Some []) /\
  fitted_shape (calibrate ZelikmanCalibrator two_task_state) = Some [1; 2]%nat.
Proof.
  split; [reflexivity|].
  split; [apply calibrate_stores_scalar; discriminate|].
  split; [apply calibrate_stores_scalar; discriminate|].
  reflexivity.
Qed.


(** *** Elementwise maps and broadcasting *)

Lemma mapM_ext {A B : Type} (f g : A -> result B) (l : list A) :
  (forall x, f x = g x) -> mapM f l = mapM g l.
Proof.
  intros H. induction l as [|x l IH]; cbn; [reflexivity|].
  now rewrite H, IH.
Qed.

Lemma mapM_map {A B C : Type} (f : B -> result C) (h : A -> B) (l : list A) :
  mapM f (map h l) = mapM (fun x => f (h x)) l.
Proof.
  induction l as [|x l IH]; cbn; [reflexivity|]. now rewrite IH.
Qed.

Lemma mapM_rmap {A B C : Type} (f : A -> result B) (g : B -> C) (l : list A) :
  mapM (fun x => rmap g (f x)) l = rmap (map g) (mapM f l).
Proof.
  induction l as [|x l IH]; cbn; [reflexivity|].
  rewrite IH. destruct (f x); cbn; [|reflexivity].
  destruct (mapM f l); reflexivity.
Qed.

Lemma mapM_Ok {A B : Type} (f : A -> B) (l : list A) :
  mapM (fun x => Ok (f x)) l = Ok (map f l).
Proof.
  induction l as [|x l IH]; cbn; [reflexivity|]. now rewrite IH.
Qed.

Lemma combine_map_l {A A' B : Type} (h : A -> A') (a : list A) (b : list B) :
  combine (map h a) b = map (fun xy => (h (fst xy), snd xy)) (combine a b).
Proof.
  revert b. induction a as [|x a IH]; intros [|y b]; cbn; try reflexivity.
  now rewrite IH.
Qed.

(** Mapping the left operand commutes with broadcasting. *)
Lemma broadcast_map_l {A A' B C C' : Type}
    (f : A' -> B -> result C') (f' : A -> B -> result C)
    (h : A -> A') (g : C -> C') (a : list A) (b : list B) :
  (forall x y, f (h x) y = rmap g (f' x y)) ->
  broadcast f (map h a) b = rmap (map g) (broadcast f' a b).
Proof.
  intros Hf.
  assert (Hleft : forall x, mapM (f (h x)) b = rmap (map g) (mapM (f' x) b)).
  { intros x. rewrite <- mapM_rmap. apply mapM_ext. intros y. apply Hf. }
  assert (Hright : forall y l,
             mapM (fun x => f x y) (map h l) =
             rmap (map g) (mapM (fun x => f' x y) l)).
  { intros y l. rewrite mapM_map, <- mapM_rmap. apply mapM_ext.
    intros x. apply Hf. }
  assert (Hzip : mapM (fun xy => f (fst xy) (snd xy)) (combine (map h a) b) =
                 rmap (map g) (mapM (fun xy => f' (fst xy) (snd xy)) (combine a b))).
  { rewrite combine_map_l, mapM_map, <- mapM_rmap. apply mapM_ext.
    intros [x y]. apply Hf. }
  unfold broadcast.
  destruct a as [|x [|x' a]]; cbn [map].
  - destruct b as [|y [|y' b]]; reflexivity.
  - apply Hleft.
  - destruct b as [|y [|y' b]].
    + reflexivity.
    + apply (Hright y (x :: x' :: a)).
    + cbn [List.length] in *. rewrite length_map.
      destruct (Nat.eqb _ _); [exact Hzip | reflexivity].
Qed.

Lemma np_map_ext (f g : R -> R) (a : ndarray) :
  (forall x, f x = g x) -> np_map f a = np_map g a.
Proof.
  intros H. destruct a as [x|v|m]; cbn.
  - now rewrite H.
  - f_equal. now apply map_ext.
  - f_equal. apply map_ext. intros row. now apply map_ext.
Qed.

Lemma np_map_compose (f g : R -> R) (a : ndarray) :
  np_map g (np_map f a) = np_map (fun x => g (f x)) a.
Proof.
  destruct a as [x|v|m]; cbn; [reflexivity | |].
  - now rewrite map_map.
  - rewrite map_map. f_equal. apply map_ext. intros row. now rewrite map_map.
Qed.

Lemma np_array_map (f : R -> R) (rows : matrix) :
  np_array (map (map f) rows) = np_map f (np_array rows).
Proof. destruct rows; reflexivity. Qed.

Lemma rmap_rmap {A B C : Type} (f : A -> B) (g : B -> C) (r : result A) :
  rmap g (rmap f r) = rmap (fun x => g (f x)) r.
Proof. destruct r; reflexivity. Qed.

(** Mapping the left operand commutes with a binary ufunc. *)
Lemma np_binop_map_l (op op' : R -> R -> R) (h g : R -> R) (a b : ndarray) :
  (forall x y, op (h x) y = g (op' x y)) ->
  np_binop op (np_map h a) b = rmap (np_map g) (np_binop op' a b).
Proof.
  intros Hop.
  assert (H1 : forall u v,
             broadcast1 op (map h u) v = rmap (map g) (broadcast1 op' u v)).
  { intros u v. apply broadcast_map_l. intros x y. cbn. now rewrite Hop. }
  assert (H2 : forall m n,
             broadcast2 op (map (map h) m) n =
             rmap (map (map g)) (broadcast2 op' m n)).
  { intros m n. apply broadcast_map_l. intros x y. apply H1. }
  assert (Hrow : forall (k k' : R -> R) u,
             (forall x, k (h x) = g (k' x)) ->
             map k (map h u) = map g (map k' u)).
  { intros k k' u Hk. rewrite !map_map. now apply map_ext. }
  destruct a as [x|u|m], b as [y|v|n]; cbn [np_map np_binop rmap rbind].
  - now rewrite Hop.
  - do 2 f_equal. rewrite map_map. apply map_ext. intros. apply Hop.
  - do 2 f_equal. rewrite map_map. apply map_ext. intros row.
    rewrite map_map. apply map_ext. intros. apply Hop.
  - do 2 f_equal. apply Hrow. intros. apply Hop.
  - rewrite H1. now rewrite !rmap_rmap.
  - pose proof (H2 [u] n) as Hun. cbn [map] in Hun.
    rewrite Hun. now rewrite !rmap_rmap.
  - do 2 f_equal. rewrite !map_map. apply map_ext. intros row.
    apply Hrow. intros. apply Hop.
  - rewrite H2. now rewrite !rmap_rmap.
  - rewrite H2. now rewrite !rmap_rmap.
Qed.


(** *** The constructor, step by step *)

Lemma construct_unfold (cls : calibrator_class) (kw : kwargs) :
  construct cls kw =
    if String.eqb (arg_dataset_type kw) "regression"
    then
      match uncertainty_predictor_builder
              (arg_calibration_data kw) (arg_models kw) (arg_scalers kw)
              (arg_dataset_type kw) (arg_batch_size kw) (arg_num_workers kw)
              (arg_loss_function kw) (arg_uncertainty_method kw)
      with
      | Ok predictor =>
          match calibrate cls (ready_to_calibrate kw predictor) with
          | (Ok _, st) =>
              (Ok tt, mkState (set_label (label_of cls kw) (self st)) (log st))
          | (Raise e, st) => (Raise e, st)
          end
      | Raise e =>
          (Raise e,
           mkState (configured kw)
             [EvStoreConfiguration; EvRaiseArgumentErrors; EvBuildPredictor])
      end
    else
      (Raise (ValueError (regression_only_message cls)),
       mkState (configured kw) [EvStoreConfiguration; EvRaiseArgumentErrors]).
Proof.
  unfold construct.
  destruct cls; cbn [init]; unfold_init; unfold bind at 1;
    rewrite UncertaintyCalibrator_init_unfold;
    (destruct (String.eqb (arg_dataset_type kw) "regression"); [|reflexivity]);
    (destruct (uncertainty_predictor_builder _ _ _ _ _ _ _ _) as [p|e];
       [|reflexivity]);
    fold (ready_to_calibrate kw p);
    match goal with |- context [calibrate ?c ?st] =>
      destruct (calibrate_frame c st) as [[s ->]|[e ->]]
    end; try reflexivity;
    unfold_M; cbn;
    try destruct (String.eqb (arg_regression_calibrator_metric kw) "stdev");
    reflexivity.
Qed.


(** *** Matrices of a given shape *)

Lemma mapM_Ok_Forall {A B : Type} (f : A -> result B) (g : A -> B) (l : list A) :
  Forall (fun x => f x = Ok (g x)) l -> mapM f l = Ok (map g l).
Proof.
  induction 1 as [|x l Hx _ IH]; cbn; [reflexivity|].
  now rewrite Hx, IH.
Qed.

Lemma broadcast_same_length {A B C : Type} (f : A -> B -> result C)
    (a : list A) (b : list B) :
  List.length a = List.length b ->
  broadcast f a b = mapM (fun xy => f (fst xy) (snd xy)) (combine a b).
Proof.
  intros Hlen. unfold broadcast.
  destruct a as [|x [|x' a]], b as [|y [|y' b]]; try discriminate Hlen;
    try reflexivity.
  cbn [List.length] in *. now rewrite Hlen, Nat.eqb_refl.
Qed.

Lemma broadcast1_same_length (op : R -> R -> R) (u v : list R) :
  List.length u = List.length v ->
  broadcast1 op u v = Ok (zip_with op u v).
Proof.
  intros Hlen. unfold broadcast1. rewrite broadcast_same_length by exact Hlen.
  apply mapM_Ok.
Qed.

Lemma Forall_combine_shape (N T : nat) (a b : matrix) :
  has_shape N T a -> has_shape N T b ->
  Forall (fun uv => List.length (fst uv) = T /\ List.length (snd uv) = T)
    (combine a b).
Proof.
  intros [Ha Fa] [Hb Fb]. clear Ha Hb. revert b Fb.
  induction Fa as [|u a Hu _ IH]; intros b Fb; [constructor|].
  destruct Fb as [|v b Hv Fb]; [constructor|].
  cbn. constructor; [now split | now apply IH].
Qed.

Lemma broadcast2_same_shape (op : R -> R -> R) (N T : nat) (a b : matrix) :
  has_shape N T a -> has_shape N T b ->
  broadcast2 op a b = Ok (zip_with2 op a b).
Proof.
  intros Ha Hb. unfold broadcast2.
  rewrite broadcast_same_length by (destruct Ha, Hb; congruence).
  apply mapM_Ok_Forall.
  eapply Forall_impl; [|exact (Forall_combine_shape N T a b Ha Hb)].
  intros [u v] [Hu Hv]. cbn in *.
  apply broadcast1_same_length. congruence.
Qed.

Lemma zip_with_length (op : R -> R -> R) (u v : list R) :
  List.length u = List.length v ->
  List.length (zip_with op u v) = List.length u.
Proof.
  intros H. unfold zip_with. rewrite length_map, length_combine, <- H.
  apply Nat.min_id.
Qed.

Lemma zip_with2_shape (op : R -> R -> R) (N T : nat) (a b : matrix) :
  has_shape N T a -> has_shape N T b -> has_shape N T (zip_with2 op a b).
Proof.
  intros Ha Hb. pose proof (Forall_combine_shape N T a b Ha Hb) as Hc.
  destruct Ha as [Ha _], Hb as [Hb _]. split.
  - unfold zip_with2. rewrite length_map, length_combine, Ha, Hb.
    apply Nat.min_id.
  - unfold zip_with2. apply Forall_map.
    eapply Forall_impl; [|exact Hc].
    intros [u v] [Hu Hv]. cbn [fst snd] in *.
    rewrite zip_with_length; congruence.
Qed.

Lemma map_map_shape (f : R -> R) (N T : nat) (a : matrix) :
  has_shape N T a -> has_shape N T (map (map f) a).
Proof.
  intros [Ha Fa]. split; [now rewrite length_map|].
  apply Forall_map. eapply Forall_impl; [|exact Fa].
  intros row Hrow. cbn. now rewrite length_map.
Qed.

Lemma has_shape_nth (N T : nat) (a : matrix) (i : nat) :
  has_shape N T a -> (i < N)%nat -> List.length (nth i a []) = T.
Proof.
  intros [Ha Fa] Hi. rewrite Forall_forall in Fa.
  apply Fa, nth_In. now rewrite Ha.
Qed.

Lemma has_shape_ncols (N T : nat) (a : matrix) :
  has_shape N T a -> (1 <= N)%nat -> ncols a = T.
Proof.
  intros Ha HN. unfold ncols.
  destruct a as [|row a]; [destruct Ha as [Ha _]; cbn in Ha; lia|].
  destruct Ha as [_ Fa]. now inversion Fa.
Qed.

Lemma has_shape_np_array (N T : nat) (a : matrix) :
  has_shape N T a -> (1 <= N)%nat -> np_array a = Array2 a.
Proof.
  intros [Ha _] HN. destruct a; [cbn in Ha; lia | reflexivity].
Qed.

(** Entries of combined and mapped matrices. *)
Lemma entry_zip_with2 (op : R -> R -> R) (N T : nat) (a b : matrix) (i j : nat) :
  has_shape N T a -> has_shape N T b -> (i < N)%nat -> (j < T)%nat ->
  entry (zip_with2 op a b) i j = op (entry a i j) (entry b i j).
Proof.
  intros Ha Hb Hi Hj. unfold entry, zip_with2.
  pose proof (has_shape_nth N T a i Ha Hi) as Hla.
  pose proof (has_shape_nth N T b i Hb Hi) as Hlb.
  destruct Ha as [Ha _], Hb as [Hb _].
  rewrite (nth_indep _ [] (zip_with op [] []))
    by (rewrite length_map, length_combine; lia).
  rewrite (map_nth (fun uv => zip_with op (fst uv) (snd uv)) (combine a b) ([], [])).
  rewrite combine_nth by congruence. cbn [fst snd].
  unfold zip_with.
  rewrite (nth_indep _ 0 (op 0 0))
    by (rewrite length_map, length_combine; lia).
  rewrite (map_nth (fun xy => op (fst xy) (snd xy)) _ (0, 0)).
  rewrite combine_nth by congruence. reflexivity.
Qed.

Lemma entry_map_map (f : R -> R) (N T : nat) (a : matrix) (i j : nat) :
  has_shape N T a -> (i < N)%nat -> (j < T)%nat ->
  entry (map (map f) a) i j = f (entry a i j).
Proof.
  intros Ha Hi Hj. unfold entry.
  pose proof (has_shape_nth N T a i Ha Hi) as Hla.
  destruct Ha as [Ha _].
  rewrite (nth_indep _ [] (map f [])) by (rewrite length_map; lia).
  rewrite (map_nth (map f) a []).
  rewrite (nth_indep _ 0 (f 0)) by (rewrite length_map; lia).
  apply map_nth.
Qed.

(** A column, read entry by entry. *)
Lemma column_entries (N T : nat) (a : matrix) (j : nat) :
  has_shape N T a ->
  column j a = map (fun i => entry a i j) (seq 0 N).
Proof.
  intros [Ha _]. unfold column, entry.
  apply (nth_ext _ _ 0 0).
  - now rewrite !length_map, length_seq.
  - intros i Hi. rewrite length_map in Hi.
    rewrite (nth_indep (map (fun row => nth j row 0) a) 0 (nth j [] 0))
      by (rewrite length_map; lia).
    rewrite (map_nth (fun row => nth j row 0) a []).
    rewrite (nth_indep (map (fun i0 => nth j (nth i0 a []) 0) (seq 0 N)) 0
               ((fun i0 => nth j (nth i0 a []) 0) 0%nat))
      by (rewrite length_map, length_seq; lia).
    rewrite (map_nth (fun i0 => nth j (nth i0 a []) 0) (seq 0 N) 0%nat).
    rewrite seq_nth by lia. reflexivity.
Qed.


(** *** The Zelikman calibrator *)

(** The matrix of absolute z-scores that [ZelikmanCalibrator.calibrate]
    builds by broadcasting. *)
Lemma abs_zscore_matrix (N T : nat) (preds targets_ vars : matrix) :
  (1 <= N)%nat ->
  has_shape N T preds -> has_shape N T targets_ -> has_shape N T vars ->
  exists zs : matrix,
    (let* difference := np_subtract (np_array preds) (np_array targets_) in
     np_divide (np_abs difference) (np_sqrt (np_array vars))) = Ok (Array2 zs) /\
    has_shape N T zs /\
    forall i j, (i < N)%nat -> (j < T)%nat ->
      entry zs i j = spec_abs_zscore preds targets_ vars i j.
Proof.
  intros HN Hp Ht Hv.
  rewrite !(has_shape_np_array N T) by assumption.
  unfold np_subtract, np_divide. cbn [np_binop].
  rewrite (broadcast2_same_shape Rminus N T) by assumption.
  cbn [rmap rbind np_abs np_sqrt np_map np_binop].
  pose proof (zip_with2_shape Rminus N T _ _ Hp Ht) as Hd.
  pose proof (map_map_shape Rabs N T _ Hd) as Ha.
  pose proof (map_map_shape sqrt N T _ Hv) as Hs.
  rewrite (broadcast2_same_shape Rdiv N T) by assumption.
  cbn [rmap rbind].
  eexists. split; [reflexivity|]. split.
  - now apply zip_with2_shape.
  - intros i j Hi Hj. unfold spec_abs_zscore.
    rewrite (entry_zip_with2 Rdiv N T) by assumption.
    rewrite (entry_map_map Rabs N T) by assumption.
    rewrite (entry_map_map sqrt N T) by assumption.
    rewrite (entry_zip_with2 Rminus N T) by assumption.
    reflexivity.
Qed.

(** The percentile along axis 0 of a matrix, column by column. *)
Lemma np_percentile_columns (N T : nat) (zs : matrix) (q : Z) (F : nat -> nat -> R) :
  (1 <= N)%nat -> (0 <= q <= 100)%Z ->
  has_shape N T zs ->
  (forall i j, (i < N)%nat -> (j < T)%nat -> entry zs i j = F i j) ->
  np_percentile_axis0_keepdims (Array2 zs) q =
    Ok (Array2 [map (fun t => percentile_list q (map (fun i => F i t) (seq 0 N)))
                    (seq 0 T)]).
Proof.
  intros HN Hq Hz HF. unfold np_percentile_axis0_keepdims.
  replace ((0 <=? q)%Z && (q <=? 100)%Z) with true
    by (symmetry; apply andb_true_iff; split; apply Z.leb_le; lia).
  cbn [np_reduce_axis0]. do 3 f_equal.
  unfold columns. rewrite (has_shape_ncols N T) by assumption.
  rewrite map_map. apply map_ext_in. intros j Hj.
  apply in_seq in Hj. f_equal.
  rewrite (column_entries N T) by assumption.
  apply map_ext_in. intros i Hi. apply in_seq in Hi.
  apply HF; lia.
Qed.

Lemma ZelikmanCalibrator_calibrate_spec (kw : kwargs) (predictor : UncertaintyPredictor)
    (N T : nat) :
  (1 <= N)%nat ->
  (0 <= arg_interval_percentile kw <= 100)%Z ->
  has_shape N T (get_uncal_preds predictor) ->
  has_shape N T (get_uncal_vars predictor) ->
  has_shape N T (targets (arg_calibration_data kw)) ->
  calibrate ZelikmanCalibrator (ready_to_calibrate kw predictor) =
    (Ok tt,
     mkState
       (set_scaling
          (spec_zelikman_scaling N T (get_uncal_preds predictor)
             (targets (arg_calibration_data kw)) (get_uncal_vars predictor)
             (arg_interval_percentile kw))
          (self (ready_to_calibrate kw predictor)))
       (log (ready_to_calibrate kw predictor))).
Proof.
  intros HN Hq Hp Hv Ht.
  destruct (abs_zscore_matrix N T _ _ _ HN Hp Ht Hv) as (zs & Hzs & Hshape & Hentry).
  pose proof (np_percentile_columns N T zs _ _ HN Hq Hshape Hentry) as Hperc.
  unfold calibrate, ZelikmanCalibrator_calibrate, ready_to_calibrate.
  unfold_M. cbn [self log configured set_calibration_predictor
                 calibration_predictor calibration_data interval_percentile].
  unfold rbind in Hzs.
  destruct (np_subtract _ _) as [difference|e]; [|discriminate Hzs].
  rewrite Hzs, Hperc. reflexivity.
Qed.


(** What [cls(...)] returns, read off [construct_unfold]. *)
Lemma new_unfold (cls : calibrator_class) (kw : kwargs) :
  new cls kw =
    if String.eqb (arg_dataset_type kw) "regression"
    then
      let* predictor :=
        uncertainty_predictor_builder
          (arg_calibration_data kw) (arg_models kw) (arg_scalers kw)
          (arg_dataset_type kw) (arg_batch_size kw) (arg_num_workers kw)
          (arg_loss_function kw) (arg_uncertainty_method kw) in
      match calibrate cls (ready_to_calibrate kw predictor) with
      | (Ok _, st) => Ok (set_label (label_of cls kw) (self st))
      | (Raise e, _) => Raise e
      end
    else Raise (ValueError (regression_only_message cls)).
Proof.
  unfold new. rewrite construct_unfold.
  destruct (String.eqb (arg_dataset_type kw) "regression"); [|reflexivity].
  destruct (uncertainty_predictor_builder _ _ _ _ _ _ _ _) as [p|e];
    [|reflexivity].
  cbn [rbind]. destruct (calibrate cls _) as [[[]|e] st]; reflexivity.
Qed.

(** The scaling of the Zelikman calibrator does not depend on the
    calibration metric. *)
Lemma Zelikman_calibrate_metric (kw : kwargs) (predictor : UncertaintyPredictor)
    (metric : string) :
  match calibrate ZelikmanCalibrator (ready_to_calibrate (with_metric metric kw) predictor),
        calibrate ZelikmanCalibrator (ready_to_calibrate kw predictor) with
  | (Ok _, st1), (Ok _, st2) => scaling (self st1) = scaling (self st2)
  | (Raise e1, _), (Raise e2, _) => e1 = e2
  | _, _ => False
  end.
Proof.
  unfold calibrate, ZelikmanCalibrator_calibrate, ready_to_calibrate.
  unfold_M.
  cbn [self log configured set_calibration_predictor with_metric
       calibration_predictor calibration_data interval_percentile
       arg_calibration_data arg_interval_percentile].
  split_matches; reflexivity.
Qed.

(** C4.  On a regression dataset whose predictions, variances and targets
    have shape (N, T), with N >= 1 and a percentile in [0, 100],
    constructing a [ZelikmanCalibrator] succeeds and stores as scaling, for
    each task, the percentile over the calibration examples of
    |prediction - target| / sqrt(variance).  Whatever the calibration data,
    the stored scaling is the same for every value of
    [regression_calibrator_metric], and the label of a constructed
    calibrator contains the percentile. *)
Theorem Zelikman_scaling_is_percentile_of_abs_zscores (kw : kwargs) :
  (forall (predictor : UncertaintyPredictor) (N T : nat),
     uncertainty_predictor_builder
       (arg_calibration_data kw) (arg_models kw) (arg_scalers kw)
       (arg_dataset_type kw) (arg_batch_size kw) (arg_num_workers kw)
       (arg_loss_function kw) (arg_uncertainty_method kw) = Ok predictor ->
     arg_dataset_type kw = "regression" ->
     (1 <= N)%nat ->
     (0 <= arg_interval_percentile kw <= 100)%Z ->
     has_shape N T (get_uncal_preds predictor) ->
     has_shape N T (get_uncal_vars predictor) ->
     has_shape N T (targets (arg_calibration_data kw)) ->
     exists c : Calibrator,
       new ZelikmanCalibrator kw = Ok c /\
       scaling c =
         Some (spec_zelikman_scaling N T (get_uncal_preds predictor)
                 (targets (arg_calibration_data kw)) (get_uncal_vars predictor)
                 (arg_interval_percentile kw))) /\
  (forall metric : string,
     rmap scaling (new ZelikmanCalibrator (with_metric metric kw)) =
     rmap scaling (new ZelikmanCalibrator kw)) /\
  (forall c : Calibrator,
     new ZelikmanCalibrator kw = Ok c ->
     exists l : string,
       label c = Some l /\
       contains l (str_int (arg_interval_percentile kw))).
Proof.
  split; [|split].
  - intros predictor N T Hb Hd HN Hq Hp Hv Ht.
    rewrite new_unfold, Hb, Hd. cbn [String.eqb Ascii.eqb Bool.eqb rbind].
    rewrite (ZelikmanCalibrator_calibrate_spec kw predictor N T) by assumption.
    eexists. split; reflexivity.
  - intros metric. rewrite !new_unfold.
    cbn [with_metric arg_dataset_type arg_calibration_data arg_models
         arg_scalers arg_batch_size arg_num_workers arg_loss_function
         arg_uncertainty_method].
    destruct (String.eqb (arg_dataset_type kw) "regression"); [|reflexivity].
    destruct (uncertainty_predictor_builder _ _ _ _ _ _ _ _) as [p|e];
      [|reflexivity].
    cbn [rbind].
    pose proof (Zelikman_calibrate_metric kw p metric) as H.
    destruct (calibrate _ (ready_to_calibrate (with_metric metric kw) p))
      as [[[]|e1] st1];
      destruct (calibrate _ (ready_to_calibrate kw p)) as [[[]|e2] st2];
      cbn; try contradiction.
    + now rewrite H.
    + now rewrite H.
  - intros c Hc. rewrite new_unfold in Hc.
    destruct (String.eqb (arg_dataset_type kw) "regression"); [|discriminate Hc].
    destruct (uncertainty_predictor_builder _ _ _ _ _ _ _ _) as [p|e];
      [|discriminate Hc].
    cbn [rbind] in Hc.
    destruct (calibrate _ _) as [[[]|e] st]; [|discriminate Hc].
    injection Hc as <-. eexists. split; [reflexivity|].
    cbn [label_of].
    exists (arg_uncertainty_method kw ++ "_zelikman_"), "interval".
    now rewrite string_append_assoc.
Qed.


(** *** Interval mode against stdev mode *)

Ltac run_calibrate :=
  unfold calibrate, ZScalingCalibrator_calibrate, TScalingCalibrator_calibrate,
    ready_to_calibrate;
  unfold_M;
  cbn [self log configured set_calibration_predictor with_metric
       calibration_predictor calibration_data interval_percentile
       regression_calibrator_metric num_models
       arg_calibration_data arg_interval_percentile arg_models
       arg_regression_calibrator_metric
       String.eqb Ascii.eqb Bool.eqb];
  split_matches.

Lemma ZScaling_calibrate_modes (kw : kwargs) (predictor : UncertaintyPredictor) :
  match calibrate ZScalingCalibrator (ready_to_calibrate (with_metric "stdev" kw) predictor),
        calibrate ZScalingCalibrator (ready_to_calibrate (with_metric "interval" kw) predictor)
  with
  | (Ok _, st1), (Ok _, st2) =>
      exists s : R,
        scaling (self st1) = Some (Scalar s) /\
        scaling (self st2) =
          Some (Scalar (s * erfinv (IZR (arg_interval_percentile kw) / 100) * sqrt 2))
  | (Raise e1, _), (Raise e2, _) => e1 = e2
  | _, _ => False
  end.
Proof.
  run_calibrate; try reflexivity.
  eexists; split; reflexivity.
Qed.

Lemma TScaling_calibrate_modes (kw : kwargs) (predictor : UncertaintyPredictor) :
  match calibrate TScalingCalibrator (ready_to_calibrate (with_metric "stdev" kw) predictor),
        calibrate TScalingCalibrator (ready_to_calibrate (with_metric "interval" kw) predictor)
  with
  | (Ok _, st1), (Ok _, st2) =>
      exists s : R,
        scaling (self st1) = Some (Scalar s) /\
        scaling (self st2) =
          Some (Scalar (s * t_ppf ((IZR (arg_interval_percentile kw) / 100 + 1) / 2)
                              (IZR (Z.of_nat (List.length (arg_models kw)) - 1))))
  | (Raise e1, _), (Raise e2, _) => e1 = e2
  | _, _ => False
  end.
Proof.
  run_calibrate; try reflexivity.
  eexists; split; reflexivity.
Qed.

Lemma new_modes (cls : calibrator_class) (kw : kwargs) :
  cls <> ZelikmanCalibrator ->
  match new cls (with_metric "stdev" kw), new cls (with_metric "interval" kw) with
  | Ok c1, Ok c2 =>
      exists s : R,
        scaling c1 = Some (Scalar s) /\
        scaling c2 = Some (Scalar (s * interval_multiplier cls kw))
  | Raise e1, Raise e2 => e1 = e2
  | _, _ => False
  end.
Proof.
  intros Hcls. rewrite !new_unfold.
  cbn [with_metric arg_dataset_type arg_calibration_data arg_models
       arg_scalers arg_batch_size arg_num_workers arg_loss_function
       arg_uncertainty_method].
  destruct (String.eqb (arg_dataset_type kw) "regression"); [|reflexivity].
  destruct (uncertainty_predictor_builder _ _ _ _ _ _ _ _) as [p|e];
    [|reflexivity].
  cbn [rbind].
  destruct cls; [| |congruence].
  - pose proof (ZScaling_calibrate_modes kw p) as H.
    destruct (calibrate _ (ready_to_calibrate (with_metric "stdev" kw) p))
      as [[[]|e1] st1];
      destruct (calibrate _ (ready_to_calibrate (with_metric "interval" kw) p))
        as [[[]|e2] st2]; try exact H.
    destruct H as (s & H1 & H2). exists s. cbn. split; [exact H1|].
    rewrite H2. do 2 f_equal. ring.
  - pose proof (TScaling_calibrate_modes kw p) as H.
    destruct (calibrate _ (ready_to_calibrate (with_metric "stdev" kw) p))
      as [[[]|e1] st1];
      destruct (calibrate _ (ready_to_calibrate (with_metric "interval" kw) p))
        as [[[]|e2] st2]; exact H.
Qed.


(** C5.  A [ZScalingCalibrator] fitted in interval mode at percentile p
    stores the scale factor s fitted in stdev mode on the same data times
    sqrt(2) * erfinv(p / 100); a [TScalingCalibrator] fitted in interval mode
    stores s times t_ppf((p / 100 + 1) / 2, df = num_models - 1).  The fit in
    interval mode succeeds exactly when the fit in stdev mode does. *)
Theorem interval_scaling_is_stdev_scaling_times_quantile (kw : kwargs) :
  (forall c' : Calibrator,
     new ZScalingCalibrator (with_metric "interval" kw) = Ok c' ->
     exists (c : Calibrator) (s : R),
       new ZScalingCalibrator (with_metric "stdev" kw) = Ok c /\
       scaling c = Some (Scalar s) /\
       scaling c' =
         Some (Scalar (s * (sqrt 2 * erfinv (IZR (arg_interval_percentile kw) / 100))))) /\
  (forall c' : Calibrator,
     new TScalingCalibrator (with_metric "interval" kw) = Ok c' ->
     exists (c : Calibrator) (s : R),
       new TScalingCalibrator (with_metric "stdev" kw) = Ok c /\
       scaling c = Some (Scalar s) /\
       scaling c' =
         Some (Scalar (s * t_ppf ((IZR (arg_interval_percentile kw) / 100 + 1) / 2)
                             (IZR (Z.of_nat (List.length (arg_models kw)) - 1))))) /\
  (forall (cls : calibrator_class) (c : Calibrator),
     cls <> ZelikmanCalibrator ->
     new cls (with_metric "stdev" kw) = Ok c ->
     exists c' : Calibrator, new cls (with_metric "interval" kw) = Ok c').
Proof.
  split; [|split].
  - intros c' Hc'.
    pose proof (new_modes ZScalingCalibrator kw ltac:(discriminate)) as H.
    rewrite Hc' in H.
    destruct (new ZScalingCalibrator (with_metric "stdev" kw)) as [c|e];
      [|contradiction].
    destruct H as (s & H1 & H2). now exists c, s.
  - intros c' Hc'.
    pose proof (new_modes TScalingCalibrator kw ltac:(discriminate)) as H.
    rewrite Hc' in H.
    destruct (new TScalingCalibrator (with_metric "stdev" kw)) as [c|e];
      [|contradiction].
    destruct H as (s & H1 & H2). now exists c, s.
  - intros cls c Hcls Hc.
    pose proof (new_modes cls kw Hcls) as H.
    rewrite Hc in H.
    destruct (new cls (with_metric "interval" kw)) as [c'|e];
      [now exists c' | contradiction].
Qed.

(** *** Applying a calibrator *)

Lemma np_sqrt_scaled (k : R) (a : ndarray) :
  0 <= k ->
  np_sqrt (np_map (Rmult k) a) = np_map (Rmult (sqrt k)) (np_sqrt a).
Proof.
  intros Hk. unfold np_sqrt. rewrite !np_map_compose.
  apply np_map_ext. intros x. now apply sqrt_mult_alt.
Qed.

Lemma np_multiply_scaled (k : R) (a s : ndarray) :
  np_multiply (np_map (Rmult k) a) s = rmap (np_map (Rmult k)) (np_multiply a s).
Proof.
  apply np_binop_map_l. intros x y. ring.
Qed.

(** C8.  With the fitted state of the calibrator fixed, multiplying every
    raw variance of the evaluation predictor by a constant k > 0 multiplies
    every entry of the calibrated spread by sqrt(k) and leaves everything
    else as it was: the predictions, and whether the call returns or raises.
    This holds for [ZScalingCalibrator] and [TScalingCalibrator] (and for
    [ZelikmanCalibrator], whose [apply_calibration] is that of
    [ZScalingCalibrator]). *)
Theorem scaled_variances_scale_spread
    (cls : calibrator_class) (k : R) (p : UncertaintyPredictor) (st : state) :
  0 < k ->
  fst (apply_calibration cls (scale_variances k p) st) =
  rmap (scale_spread (sqrt k)) (fst (apply_calibration cls p st)).
Proof.
  intros Hk. assert (Hk0 : 0 <= k) by lra.
  destruct cls; cbn [apply_calibration];
    unfold ZScalingCalibrator_apply_calibration,
      TScalingCalibrator_apply_calibration,
      ZelikmanCalibrator_apply_calibration;
    unfold_M; cbn [scale_variances get_uncal_preds get_uncal_vars];
    rewrite np_array_map.
  - destruct (scaling (self st)) as [s|]; [|reflexivity].
    rewrite (np_sqrt_scaled k _ Hk0), np_multiply_scaled.
    destruct (np_multiply _ s); reflexivity.
  - destruct (num_models (self st)) as [n|]; [|reflexivity].
    destruct (scaling (self st)) as [s|]; [|reflexivity].
    rewrite !np_divide_scalar. cbn [rbind].
    replace (np_map (fun x => x / IZR (n - 1)) (np_map (Rmult k) (np_array (get_uncal_vars p))))
      with (np_map (Rmult k) (np_map (fun x => x / IZR (n - 1)) (np_array (get_uncal_vars p))))
      by (rewrite !np_map_compose; apply np_map_ext; intros x;
          unfold Rdiv; ring).
    rewrite (np_sqrt_scaled k _ Hk0), np_multiply_scaled.
    destruct (np_multiply _ s); reflexivity.
  - destruct (scaling (self st)) as [s|]; [|reflexivity].
    rewrite (np_sqrt_scaled k _ Hk0), np_multiply_scaled.
    destruct (np_multiply _ s); reflexivity.
Qed.


(** The attributes of a constructed calibrator. *)
Lemma new_fitted (cls : calibrator_class) (kw : kwargs) (c : Calibrator) :
  new cls kw = Ok c ->
  exists (predictor : UncertaintyPredictor) (s : ndarray),
    calibration_predictor c = Some predictor /\
    scaling c = Some s /\
    num_models c = Some (Z.of_nat (List.length (arg_models kw))) /\
    label c = Some (label_of cls kw) /\
    (cls <> ZelikmanCalibrator -> exists x : R, s = Scalar x).
Proof.
  intros Hc. rewrite new_unfold in Hc.
  destruct (String.eqb (arg_dataset_type kw) "regression"); [|discriminate Hc].
  destruct (uncertainty_predictor_builder _ _ _ _ _ _ _ _) as [p|e];
    [|discriminate Hc].
  cbn [rbind] in Hc.
  pose proof (calibrate_stores_scalar cls (ready_to_calibrate kw p)) as Hshape.
  destruct (calibrate_frame cls (ready_to_calibrate kw p)) as [[s Hs]|[e He]];
    [|rewrite He in Hc; discriminate Hc].
  rewrite Hs in Hc, Hshape. injection Hc as <-.
  exists p, s. repeat split; try reflexivity.
  intros Hcls. destruct (Hshape Hcls) as [H|H]; cbn in H; [discriminate H|].
  destruct s as [x|v|m]; [now exists x | discriminate H | discriminate H].
Qed.

Lemma broadcast_singleton_r {A B C : Type} (f : A -> B -> result C)
    (a : list A) (y : B) :
  broadcast f a [y] = mapM (fun x => f x y) a.
Proof. destruct a as [|x [|x' a]]; reflexivity. Qed.

(** A matrix times a row of matching length. *)
Lemma broadcast2_row (op : R -> R -> R) (N T : nat) (a : matrix) (row : list R) :
  has_shape N T a -> List.length row = T ->
  broadcast2 op a [row] = Ok (map (fun u => zip_with op u row) a).
Proof.
  intros [_ Fa] Hrow. unfold broadcast2. rewrite broadcast_singleton_r.
  apply mapM_Ok_Forall. eapply Forall_impl; [|exact Fa].
  intros u Hu. apply broadcast1_same_length. congruence.
Qed.

(** C7.  [apply_calibration] leaves the state of the calibrator as it
    found it, so calling it again gives the same outcome; whenever it returns,
    the first component of its result is the list of predictions of the
    evaluation predictor, unchanged.  It does return on every evaluation
    predictor for a constructed [ZScalingCalibrator] or [TScalingCalibrator],
    and for a calibrator whose scaling is one row of T entries (as the
    Zelikman calibrator stores it) on every evaluation predictor whose
    variances have shape (N, T) with N >= 1. *)
Theorem apply_calibration_returns_predictions_unchanged
    (cls : calibrator_class) (p : UncertaintyPredictor) (st : state) :
  snd (apply_calibration cls p st) = st /\
  apply_calibration cls p (snd (apply_calibration cls p st)) =
    apply_calibration cls p st /\
  (forall out : matrix * ndarray,
     fst (apply_calibration cls p st) = Ok out ->
     fst out = get_uncal_preds p) /\
  (forall kw : kwargs,
     cls <> ZelikmanCalibrator ->
     new cls kw = Ok (self st) ->
     exists spread : ndarray,
       fst (apply_calibration cls p st) = Ok (get_uncal_preds p, spread)) /\
  (forall (row : list R) (N : nat),
     cls = ZelikmanCalibrator ->
     scaling (self st) = Some (Array2 [row]) ->
     (1 <= N)%nat ->
     has_shape N (List.length row) (get_uncal_vars p) ->
     exists spread : ndarray,
       fst (apply_calibration cls p st) = Ok (get_uncal_preds p, spread)).
Proof.
  assert (Hframe : snd (apply_calibration cls p st) = st).
  { destruct cls; cbn [apply_calibration];
      unfold ZScalingCalibrator_apply_calibration,
        TScalingCalibrator_apply_calibration,
        ZelikmanCalibrator_apply_calibration;
      unfold_M; split_matches; reflexivity. }
  split; [exact Hframe|]. split; [now rewrite Hframe|]. split; [|split].
  - intros out.
    destruct cls; cbn [apply_calibration];
      unfold ZScalingCalibrator_apply_calibration,
        TScalingCalibrator_apply_calibration,
        ZelikmanCalibrator_apply_calibration;
      unfold_M; split_matches; cbn [fst];
      intros H; try discriminate H; injection H as <-; reflexivity.
  - intros kw Hcls Hnew.
    destruct (new_fitted cls kw (self st) Hnew)
      as (predictor & s & _ & Hs & Hn & _ & Hscalar).
    destruct (Hscalar Hcls) as [x ->].
    destruct cls; [| |congruence]; cbn [apply_calibration];
      unfold ZScalingCalibrator_apply_calibration,
        TScalingCalibrator_apply_calibration;
      unfold_M; rewrite ?Hn, Hs; unfold np_multiply;
      rewrite ?np_divide_scalar; cbn [rbind]; rewrite np_binop_scalar_r;
      eexists; reflexivity.
  - intros row N -> Hs HN Hshape.
    cbn [apply_calibration]. unfold ZelikmanCalibrator_apply_calibration.
    unfold_M. rewrite Hs.
    rewrite (has_shape_np_array N _ _ Hshape HN).
    unfold np_multiply. cbn [np_sqrt np_map np_binop].
    rewrite (broadcast2_row Rmult N (List.length row))
      by (try apply map_map_shape; auto).
    cbn. eexists; reflexivity.
Qed.


(** *** Signs *)

Lemma mapM_Forall {A B : Type} (f : A -> result B) (Q : B -> Prop)
    (l : list A) (r : list B) :
  (forall x y, In x l -> f x = Ok y -> Q y) ->
  mapM f l = Ok r -> Forall Q r.
Proof.
  revert r. induction l as [|x l IH]; cbn; intros r Hf Hr.
  - injection Hr as <-. constructor.
  - destruct (f x) as [y|e] eqn:Hy; [|discriminate Hr]. cbn in Hr.
    destruct (mapM f l) as [ys|e] eqn:Hys; [|discriminate Hr]. cbn in Hr.
    injection Hr as <-. constructor.
    + apply (Hf x); [now left | exact Hy].
    + apply IH; [|reflexivity].
      intros x' y' Hin. apply Hf. now right.
Qed.

Lemma broadcast_Forall {A B C : Type} (f : A -> B -> result C) (Q : C -> Prop)
    (a : list A) (b : list B) (r : list C) :
  (forall x y z, In x a -> In y b -> f x y = Ok z -> Q z) ->
  broadcast f a b = Ok r -> Forall Q r.
Proof.
  intros Hf. unfold broadcast.
  assert (Hzip : mapM (fun xy => f (fst xy) (snd xy)) (combine a b) = Ok r ->
                 Forall Q r).
  { apply mapM_Forall. intros [x y] z Hin Hz. cbn in Hz.
    apply (Hf x y); [eapply in_combine_l | eapply in_combine_r |]; eauto. }
  assert (Hright : forall y, In y b ->
             mapM (fun x => f x y) a = Ok r -> Forall Q r).
  { intros y Hy. apply mapM_Forall. intros x z Hx Hz. apply (Hf x y); auto. }
  destruct a as [|x [|x' a]].
  - destruct b as [|y [|y' b]]; [exact Hzip | | ].
    + apply (Hright y). now left.
    + destruct (Nat.eqb _ _); [exact Hzip | discriminate].
  - apply mapM_Forall. intros y z Hy Hz. apply (Hf x y); cbn; auto.
  - destruct b as [|y [|y' b]].
    + destruct (Nat.eqb _ _); [exact Hzip | discriminate].
    + apply (Hright y). now left.
    + destruct (Nat.eqb _ _); [exact Hzip | discriminate].
Qed.

Lemma np_map_all (P Q : R -> Prop) (f : R -> R) (a : ndarray) :
  (forall x, P x -> Q (f x)) -> np_all P a -> np_all Q (np_map f a).
Proof.
  intros Hf. destruct a as [x|v|m]; cbn; intros Ha.
  - auto.
  - apply Forall_map. eapply Forall_impl; eauto.
  - apply Forall_map. eapply Forall_impl; [|exact Ha].
    intros row Hrow. apply Forall_map. eapply Forall_impl; eauto.
Qed.

Lemma np_binop_all (P Q S : R -> Prop) (op : R -> R -> R) (a b r : ndarray) :
  (forall x y, P x -> Q y -> S (op x y)) ->
  np_all P a -> np_all Q b ->
  np_binop op a b = Ok r -> np_all S r.
Proof.
  intros Hop Ha Hb.
  assert (H1 : forall u v w, Forall P u -> Forall Q v ->
             broadcast1 op u v = Ok w -> Forall S w).
  { intros u v w Hu Hv. apply broadcast_Forall.
    intros x y z Hx Hy Hz. injection Hz as <-.
    rewrite Forall_forall in Hu, Hv. auto. }
  assert (H2 : forall m n w, Forall (Forall P) m -> Forall (Forall Q) n ->
             broadcast2 op m n = Ok w -> Forall (Forall S) w).
  { intros m n w Hm Hn. apply broadcast_Forall.
    intros u v z Hu Hv. rewrite Forall_forall in Hm, Hn.
    apply H1; auto. }
  destruct a as [x|u|m], b as [y|v|n]; cbn [np_binop]; intros Hr;
    try (match type of Hr with
         | Ok ?t = Ok r => assert (Hr' : r = t) by congruence; clear Hr; subst r
         end;
         first [ apply (np_map_all Q); [|exact Hb];
                 intros y' Hy'; apply Hop; [exact Ha | exact Hy']
               | apply (np_map_all P); [|exact Ha];
                 intros x' Hx'; apply Hop; [exact Hx' | exact Hb] ]).
  - destruct (broadcast1 op u v) as [w|e] eqn:Hw; [|discriminate Hr].
    injection Hr as <-. now apply (H1 u v).
  - destruct (broadcast2 op [u] n) as [w|e] eqn:Hw; [|discriminate Hr].
    injection Hr as <-. apply (H2 [u] n); auto.
  - destruct (broadcast2 op m [v]) as [w|e] eqn:Hw; [|discriminate Hr].
    injection Hr as <-. apply (H2 m [v]); auto.
  - destruct (broadcast2 op m n) as [w|e] eqn:Hw; [|discriminate Hr].
    injection Hr as <-. now apply (H2 m n).
Qed.

Lemma np_sqrt_nonneg (a : ndarray) : np_all (fun x => 0 <= x) (np_sqrt a).
Proof.
  apply (np_map_all (fun _ => True)).
  - intros x _. apply sqrt_pos.
  - destruct a as [x|v|m]; cbn; auto.
    + apply Forall_forall; auto.
    + apply Forall_forall. intros row _. apply Forall_forall; auto.
Qed.

Lemma np_abs_nonneg (a : ndarray) : np_all (fun x => 0 <= x) (np_abs a).
Proof.
  apply (np_map_all (fun _ => True)).
  - intros x _. apply Rabs_pos.
  - destruct a as [x|v|m]; cbn; auto.
    + apply Forall_forall; auto.
    + apply Forall_forall. intros row _. apply Forall_forall; auto.
Qed.

Lemma Rdiv_nonneg (x y : R) : 0 <= x -> 0 <= y -> 0 <= x / y.
Proof.
  intros Hx [Hy|<-].
  - apply Rmult_le_pos; [exact Hx|]. left. now apply Rinv_0_lt_compat.
  - unfold Rdiv. rewrite Rinv_0. lra.
Qed.

(** Sorting and percentiles of non-negative values. *)
Lemma insert_sorted_Forall (P : R -> Prop) (x : R) (l : list R) :
  P x -> Forall P l -> Forall P (insert_sorted x l).
Proof.
  intros Hx. induction 1 as [|y l Hy Hl IH]; cbn.
  - now constructor.
  - destruct (Rle_dec x y); repeat constructor; auto.
Qed.

Lemma sort_list_Forall (P : R -> Prop) (l : list R) :
  Forall P l -> Forall P (sort_list l).
Proof.
  induction 1 as [|x l Hx Hl IH]; cbn; [constructor|].
  now apply insert_sorted_Forall.
Qed.

Lemma nth_Forall (P : R -> Prop) (l : list R) (i : nat) (d : R) :
  P d -> Forall P l -> P (nth i l d).
Proof.
  intros Hd Hl. destruct (Nat.lt_ge_cases i (List.length l)) as [Hi|Hi].
  - rewrite Forall_forall in Hl. apply Hl, nth_In, Hi.
  - now rewrite nth_overflow.
Qed.

Lemma percentile_list_nonneg (q : Z) (l : list R) :
  Forall (fun x => 0 <= x) l -> 0 <= percentile_list q l.
Proof.
  intros Hl. unfold percentile_list.
  pose proof (sort_list_Forall _ l Hl) as Hs.
  set (s := sort_list l) in *.
  set (h := ((Z.of_nat (List.length l) - 1) * q)%Z).
  pose proof (nth_Forall (fun x => 0 <= x) s (Z.to_nat (h / 100)) 0
                (Rle_refl 0) Hs) as Hlo.
  pose proof (nth_Forall (fun x => 0 <= x) s
                (Nat.min (S (Z.to_nat (h / 100))) (List.length l - 1)) 0
                (Rle_refl 0) Hs) as Hhi.
  cbv beta in Hlo, Hhi.
  assert (Hg : 0 <= IZR (h mod 100) / 100 <= 1).
  { pose proof (Z.mod_pos_bound h 100 ltac:(lia)) as [H0 H1].
    apply IZR_le in H0. apply IZR_lt in H1. lra. }
  nra.
Qed.


Lemma np_percentile_nonneg (a r : ndarray) (q : Z) :
  np_all (fun x => 0 <= x) a ->
  np_percentile_axis0_keepdims a q = Ok r ->
  np_all (fun x => 0 <= x) r.
Proof.
  intros Ha. unfold np_percentile_axis0_keepdims.
  destruct ((0 <=? q)%Z && (q <=? 100)%Z); [|discriminate].
  destruct a as [x|v|m]; cbn [np_reduce_axis0 np_all] in *; intros Hr;
    [discriminate Hr| |]; injection Hr as <-; cbn [np_all].
  - constructor; [|constructor]. now apply percentile_list_nonneg.
  - constructor; [|constructor]. apply Forall_map, Forall_forall. intros col Hcol.
    apply percentile_list_nonneg.
    unfold columns in Hcol. apply in_map_iff in Hcol as (j & <- & _).
    unfold column. apply Forall_map. eapply Forall_impl; [|exact Ha].
    intros row Hrow. apply nth_Forall; [apply Rle_refl | exact Hrow].
Qed.

(** The scaling the Zelikman calibrator stores is non-negative. *)
Lemma Zelikman_scaling_nonneg (st st' : state) :
  calibrate ZelikmanCalibrator st = (Ok tt, st') ->
  exists s : ndarray,
    scaling (self st') = Some s /\ np_all (fun x => 0 <= x) s.
Proof.
  unfold calibrate, ZelikmanCalibrator_calibrate. unfold_M.
  destruct (calibration_predictor (self st)) as [p|]; [|discriminate].
  destruct (calibration_data (self st)) as [d|]; [|discriminate].
  destruct (np_subtract _ _) as [difference|e]; [|discriminate].
  destruct (np_divide _ _) as [zs|e] eqn:Hzs; [|discriminate].
  destruct (interval_percentile (self st)) as [q|]; [|discriminate].
  destruct (np_percentile_axis0_keepdims zs q) as [s|e] eqn:Hs; [|discriminate].
  intros H. injection H as <-. exists s. split; [reflexivity|].
  apply (np_percentile_nonneg zs s q); [|exact Hs].
  apply (np_binop_all (fun x => 0 <= x) (fun x => 0 <= x) _ Rdiv
           (np_abs difference) (np_sqrt (np_array (get_uncal_vars p))));
    [apply Rdiv_nonneg | apply np_abs_nonneg | apply np_sqrt_nonneg | exact Hzs].
Qed.

(** With a non-negative scaling, every entry of the calibrated spread is
    non-negative, for each of the three classes. *)
Lemma spread_nonneg_of_scaling_nonneg
    (cls : calibrator_class) (p : UncertaintyPredictor) (st : state)
    (s : ndarray) (out : matrix * ndarray) :
  scaling (self st) = Some s ->
  np_all (fun x => 0 <= x) s ->
  fst (apply_calibration cls p st) = Ok out ->
  np_all (fun x => 0 <= x) (snd out).
Proof.
  intros Hs Hnonneg.
  assert (Hmul : forall a r,
             np_multiply (np_sqrt a) s = Ok r -> np_all (fun x => 0 <= x) r).
  { intros a r. apply (np_binop_all (fun x => 0 <= x) (fun x => 0 <= x));
      [intros; now apply Rmult_le_pos | apply np_sqrt_nonneg | exact Hnonneg]. }
  destruct cls; cbn [apply_calibration];
    unfold ZScalingCalibrator_apply_calibration,
      TScalingCalibrator_apply_calibration,
      ZelikmanCalibrator_apply_calibration;
    unfold_M; cbn beta.
  - rewrite Hs.
    destruct (np_multiply _ s) as [r|e] eqn:Hr; cbn; [|discriminate].
    intros H. injection H as <-. cbn. now apply Hmul in Hr.
  - destruct (num_models (self st)) as [n|]; [|discriminate].
    rewrite Hs, np_divide_scalar. cbn [rbind].
    destruct (np_multiply _ s) as [r|e] eqn:Hr; cbn; [|discriminate].
    intros H. injection H as <-. cbn. now apply Hmul in Hr.
  - rewrite Hs.
    destruct (np_multiply _ s) as [r|e] eqn:Hr; cbn; [|discriminate].
    intros H. injection H as <-. cbn. now apply Hmul in Hr.
Qed.

(** A constructed Zelikman calibrator returns non-negative spreads. *)
Lemma Zelikman_spread_nonneg
    (kw : kwargs) (p : UncertaintyPredictor) (st : state) (out : matrix * ndarray) :
  new ZelikmanCalibrator kw = Ok (self st) ->
  fst (apply_calibration ZelikmanCalibrator p st) = Ok out ->
  np_all (fun x => 0 <= x) (snd out).
Proof.
  intros Hnew. rewrite new_unfold in Hnew.
  destruct (String.eqb (arg_dataset_type kw) "regression"); [|discriminate Hnew].
  destruct (uncertainty_predictor_builder _ _ _ _ _ _ _ _) as [predictor|e];
    [|discriminate Hnew].
  cbn [rbind] in Hnew.
  destruct (calibrate _ _) as [[[]|e] st'] eqn:Hcal; [|discriminate Hnew].
  destruct (Zelikman_scaling_nonneg _ _ Hcal) as (s & Hs & Hnonneg).
  injection Hnew as Hself.
  apply (spread_nonneg_of_scaling_nonneg _ p st s); [|exact Hnonneg].
  rewrite <- Hself. exact Hs.
Qed.

(** For the two classes that store the minimiser's result, a spread entry
    has the sign of the stored scaling: with one example of variance [v] the
    spread is [sqrt v * s]. *)
Lemma ZScaling_spread_single (c : Calibrator) (l : list event) (v s : R) (preds : matrix) :
  scaling c = Some (Scalar s) ->
  fst (apply_calibration ZScalingCalibrator
         (mkUncertaintyPredictor preds [[v]]) (mkState c l)) =
  Ok (preds, Array2 [[sqrt v * s]]).
Proof.
  intros Hs. cbn [apply_calibration].
  unfold ZScalingCalibrator_apply_calibration. unfold_M. cbn [self].
  rewrite Hs. reflexivity.
Qed.

Lemma sqrt_times_negative (v s : R) : 0 < v -> s < 0 -> sqrt v * s < 0.
Proof.
  intros Hv Hs. pose proof (sqrt_lt_R0 v Hv) as Hsqrt. nra.
Qed.

(** ** Further properties

    Properties of the same code beyond the claims of the specification:
    what the constructor leaves behind on each path, how the builder, the
    constructor and [apply_calibration] compose, and what the fitted values
    are. *)

(** *** The constructor on every path *)

(** X1.  Whatever the outcome of the constructor, the object holds the
    configuration it was given; it has a label exactly when the constructor
    returned; a label comes with a scaling and a scaling with a predictor;
    and the steps taken are an initial part of: store the configuration,
    validate, build the predictor, calibrate. *)
Theorem construct_invariant (cls : calibrator_class) (kw : kwargs) :
  let outcome := fst (construct cls kw) in
  let c := self (snd (construct cls kw)) in
  (calibration_data c = Some (arg_calibration_data kw) /\
   regression_calibrator_metric c = Some (arg_regression_calibrator_metric kw) /\
   interval_percentile c = Some (arg_interval_percentile kw) /\
   dataset_type c = Some (arg_dataset_type kw) /\
   num_models c = Some (Z.of_nat (List.length (arg_models kw)))) /\
  (outcome = Ok tt <-> label c = Some (label_of cls kw)) /\
  (outcome <> Ok tt <-> label c = None) /\
  (label c <> None -> scaling c <> None) /\
  (scaling c <> None -> calibration_predictor c <> None) /\
  (exists rest : list event,
     (log (snd (construct cls kw)) ++ rest)%list =
     [EvStoreConfiguration; EvRaiseArgumentErrors; EvBuildPredictor; EvCalibrate]).
Proof.
  cbv zeta. rewrite construct_unfold.
  destruct (String.eqb (arg_dataset_type kw) "regression").
  - destruct (uncertainty_predictor_builder _ _ _ _ _ _ _ _) as [p|e].
    + destruct (calibrate_frame cls (ready_to_calibrate kw p)) as [[s ->]|[e ->]];
        cbn; repeat split; try congruence; try discriminate;
        try (now exists []).
    + cbn; repeat split; try congruence; try discriminate.
      now exists [EvCalibrate].
  - cbn; repeat split; try congruence; try discriminate.
    now exists [EvBuildPredictor; EvCalibrate].
Qed.

(** X2.  Nothing is caught on the way.  On a regression dataset an
    exception of the predictor builder leaves the constructor as it is, with
    no predictor, scaling or label on the object; an exception raised in
    [calibrate] leaves the constructor as it is, with the predictor stored
    and no scaling or label; and [cls(...)] raises the same exception in
    both cases. *)
Theorem construct_propagates_exceptions
    (cls : calibrator_class) (kw : kwargs) (e : exn) :
  arg_dataset_type kw = "regression" ->
  (uncertainty_predictor_builder
     (arg_calibration_data kw) (arg_models kw) (arg_scalers kw)
     (arg_dataset_type kw) (arg_batch_size kw) (arg_num_workers kw)
     (arg_loss_function kw) (arg_uncertainty_method kw) = Raise e ->
   construct cls kw =
     (Raise e,
      mkState (configured kw)
        [EvStoreConfiguration; EvRaiseArgumentErrors; EvBuildPredictor]) /\
   new cls kw = Raise e) /\
  (forall predictor : UncertaintyPredictor,
     uncertainty_predictor_builder
       (arg_calibration_data kw) (arg_models kw) (arg_scalers kw)
       (arg_dataset_type kw) (arg_batch_size kw) (arg_num_workers kw)
       (arg_loss_function kw) (arg_uncertainty_method kw) = Ok predictor ->
     fst (calibrate cls (ready_to_calibrate kw predictor)) = Raise e ->
     construct cls kw = (Raise e, ready_to_calibrate kw predictor) /\
     new cls kw = Raise e).
Proof.
  intros Hd. split.
  - intros Hb. unfold new. rewrite construct_unfold, Hb, Hd. split; reflexivity.
  - intros p Hb Hcal. unfold new. rewrite construct_unfold, Hb, Hd.
    cbn [String.eqb Ascii.eqb Bool.eqb].
    destruct (calibrate_frame cls (ready_to_calibrate kw p)) as [[s Hs]|[e' He]].
    + rewrite Hs in Hcal. discriminate Hcal.
    + rewrite He in Hcal |- *. cbn in Hcal. injection Hcal as ->.
      split; reflexivity.
Qed.

(** *** The builder *)

(** X3.  A strategy name of the registry selects its class whatever the
    dataset type and the metric are: the default never replaces a name that
    was given.  With such a name and a dataset that is not a regression
    dataset the builder raises the [ValueError] of the class, not a
    [NotImplementedError]. *)
Theorem builder_explicit_name (kw : kwargs) :
  uncertainty_calibrator_builder (Some "zscaling") kw = new ZScalingCalibrator kw /\
  uncertainty_calibrator_builder (Some "tscaling") kw = new TScalingCalibrator kw /\
  uncertainty_calibrator_builder (Some "zelikman_interval") kw =
    new ZelikmanCalibrator kw /\
  (arg_dataset_type kw <> "regression" ->
   uncertainty_calibrator_builder (Some "zscaling") kw =
     Raise (ValueError "Z Score Scaling is only compatible with regression datasets.") /\
   uncertainty_calibrator_builder (Some "tscaling") kw =
     Raise (ValueError "T Score Scaling is only compatible with regression datasets.") /\
   uncertainty_calibrator_builder (Some "zelikman_interval") kw =
     Raise (ValueError "Crude Scaling is only compatible with regression datasets.")).
Proof.
  assert (Hz : uncertainty_calibrator_builder (Some "zscaling") kw =
               new ZScalingCalibrator kw) by reflexivity.
  assert (Ht : uncertainty_calibrator_builder (Some "tscaling") kw =
               new TScalingCalibrator kw) by reflexivity.
  assert (Hk : uncertainty_calibrator_builder (Some "zelikman_interval") kw =
               new ZelikmanCalibrator kw) by reflexivity.
  repeat split; try assumption;
    rewrite ?Hz, ?Ht, ?Hk; unfold new;
    rewrite (construct_not_regression _ _ H); reflexivity.
Qed.

(** X4.  Every calibrator the builder returns is fitted: it was built for a
    regression dataset by the constructor of one of the three classes, and
    it has a predictor, a scaling, a label and the number of models. *)
Theorem builder_returns_fitted
    (calibration_method : option string) (kw : kwargs) (c : Calibrator) :
  uncertainty_calibrator_builder calibration_method kw = Ok c ->
  dataset_type c = Some "regression" /\
  num_models c = Some (Z.of_nat (List.length (arg_models kw))) /\
  exists (cls : calibrator_class) (predictor : UncertaintyPredictor) (s : ndarray),
    new cls kw = Ok c /\
    calibration_predictor c = Some predictor /\
    scaling c = Some s /\
    label c = Some (label_of cls kw).
Proof.
  unfold uncertainty_calibrator_builder.
  destruct (dict_get supported_calibrators _) as [cls|]; [|discriminate].
  intros Hnew.
  destruct (new_fitted cls kw c Hnew) as (p & s & Hp & Hs & Hn & Hl & _).
  assert (Hd : dataset_type c = Some "regression").
  { rewrite new_unfold in Hnew.
    destruct (String.eqb (arg_dataset_type kw) "regression") eqn:Hreg;
      [|discriminate Hnew].
    apply String.eqb_eq in Hreg.
    destruct (uncertainty_predictor_builder _ _ _ _ _ _ _ _) as [p'|e];
      [|discriminate Hnew].
    cbn [rbind] in Hnew.
    destruct (calibrate_frame cls (ready_to_calibrate kw p')) as [[s' Hs']|[e He]];
      rewrite ?Hs', ?He in Hnew; [|discriminate Hnew].
    injection Hnew as <-. cbn. now rewrite Hreg. }
  split; [exact Hd|]. split; [exact Hn|].
  now exists cls, p, s.
Qed.


(** *** What is fitted *)

(** X5.  The scaling of a constructed [ZScalingCalibrator] or
    [TScalingCalibrator] is a single number, whatever the calibration data
    and the minimiser; the scaling of a [ZelikmanCalibrator] constructed on
    calibration data of shape (N, T), N >= 1, has shape (1, T). *)
Theorem fitted_scaling_shape (kw : kwargs) :
  (forall (cls : calibrator_class) (c : Calibrator),
     cls <> ZelikmanCalibrator ->
     new cls kw = Ok c ->
     exists x : R, scaling c = Some (Scalar x)) /\
  (forall (predictor : UncertaintyPredictor) (N T : nat),
     uncertainty_predictor_builder
       (arg_calibration_data kw) (arg_models kw) (arg_scalers kw)
       (arg_dataset_type kw) (arg_batch_size kw) (arg_num_workers kw)
       (arg_loss_function kw) (arg_uncertainty_method kw) = Ok predictor ->
     arg_dataset_type kw = "regression" ->
     (1 <= N)%nat ->
     (0 <= arg_interval_percentile kw <= 100)%Z ->
     has_shape N T (get_uncal_preds predictor) ->
     has_shape N T (get_uncal_vars predictor) ->
     has_shape N T (targets (arg_calibration_data kw)) ->
     exists (c : Calibrator) (s : ndarray),
       new ZelikmanCalibrator kw = Ok c /\
       scaling c = Some s /\
       np_shape s = [1%nat; T]).
Proof.
  split.
  - intros cls c Hcls Hnew.
    destruct (new_fitted cls kw c Hnew) as (p & s & _ & Hs & _ & _ & Hscalar).
    destruct (Hscalar Hcls) as [x ->]. now exists x.
  - intros predictor N T Hb Hd HN Hq Hp Hv Ht.
    rewrite new_unfold, Hb, Hd. cbn [String.eqb Ascii.eqb Bool.eqb rbind].
    rewrite (ZelikmanCalibrator_calibrate_spec kw predictor N T) by assumption.
    eexists. eexists. split; [reflexivity|]. split; [reflexivity|].
    unfold spec_zelikman_scaling, np_shape, ncols. cbn [List.length hd].
    now rewrite length_map, length_seq.
Qed.

(** As [split_matches], reading the attributes of the object on the way. *)
Ltac split_matches_reading :=
  repeat (match goal with
          | |- context [match ?x with _ => _ end] =>
              lazymatch x with
              | context [match _ with _ => _ end] => fail
              | _ => destruct x eqn:?
              end
          end;
          cbn [self log fst snd configured set_calibration_predictor with_metric
               calibration_predictor calibration_data interval_percentile
               regression_calibrator_metric num_models
               arg_calibration_data arg_interval_percentile arg_models
               arg_regression_calibrator_metric]).

Lemma calibrate_metric_other (cls : calibrator_class) (kw : kwargs)
    (predictor : UncertaintyPredictor) (metric : string) :
  String.eqb metric "stdev" = false ->
  match calibrate cls (ready_to_calibrate (with_metric metric kw) predictor),
        calibrate cls (ready_to_calibrate (with_metric "interval" kw) predictor)
  with
  | (Ok _, st1), (Ok _, st2) => scaling (self st1) = scaling (self st2)
  | (Raise e1, _), (Raise e2, _) => e1 = e2
  | _, _ => False
  end.
Proof.
  intros Hm.
  destruct cls;
    unfold calibrate, ZScalingCalibrator_calibrate, TScalingCalibrator_calibrate,
      ZelikmanCalibrator_calibrate, ready_to_calibrate;
    unfold_M;
    cbn [self log configured set_calibration_predictor with_metric
         calibration_predictor calibration_data interval_percentile
         regression_calibrator_metric num_models
         arg_calibration_data arg_interval_percentile arg_models
         arg_regression_calibrator_metric];
    rewrite ?Hm; cbn [String.eqb Ascii.eqb Bool.eqb];
    split_matches_reading; rewrite ?Hm; reflexivity.
Qed.

(** X6.  The metric is compared with 'stdev' only: any other value, not
    just 'interval', fits and labels the calibrator as 'interval' does. *)
Theorem metric_other_than_stdev_is_interval
    (cls : calibrator_class) (kw : kwargs) (metric : string) :
  metric <> "stdev" ->
  rmap scaling (new cls (with_metric metric kw)) =
    rmap scaling (new cls (with_metric "interval" kw)) /\
  rmap label (new cls (with_metric metric kw)) =
    rmap label (new cls (with_metric "interval" kw)).
Proof.
  intros Hm. apply String.eqb_neq in Hm.
  assert (Hlabel : label_of cls (with_metric metric kw) =
                   label_of cls (with_metric "interval" kw)).
  { destruct cls; cbn [label_of with_metric arg_regression_calibrator_metric
                       arg_uncertainty_method arg_interval_percentile];
      rewrite ?Hm; reflexivity. }
  rewrite !new_unfold, Hlabel.
  cbn [with_metric arg_dataset_type arg_calibration_data arg_models
       arg_scalers arg_batch_size arg_num_workers arg_loss_function
       arg_uncertainty_method].
  destruct (String.eqb (arg_dataset_type kw) "regression"); [|split; reflexivity].
  destruct (uncertainty_predictor_builder _ _ _ _ _ _ _ _) as [p|e];
    [|split; reflexivity].
  cbn [rbind].
  pose proof (calibrate_metric_other cls kw p metric Hm) as H.
  destruct (calibrate cls (ready_to_calibrate (with_metric metric kw) p))
    as [[[]|e1] st1];
    destruct (calibrate cls (ready_to_calibrate (with_metric "interval" kw) p))
      as [[[]|e2] st2]; try contradiction; cbn.
  - split; [now rewrite H | reflexivity].
  - split; now rewrite H.
Qed.


(** X8.  For each of the three classes the spread has the sign of the
    stored scaling: if every entry of the scaling is non-negative, so is
    every entry of the spread; and with a negative scalar scaling, an
    example of positive variance gets a negative spread from
    [ZScalingCalibrator.apply_calibration]. *)
Theorem spread_sign_follows_scaling
    (cls : calibrator_class) (p : UncertaintyPredictor) (st : state) :
  (forall (s : ndarray) (out : matrix * ndarray),
     scaling (self st) = Some s ->
     np_all (fun x => 0 <= x) s ->
     fst (apply_calibration cls p st) = Ok out ->
     np_all (fun x => 0 <= x) (snd out)) /\
  (forall (s v : R) (preds : matrix),
     scaling (self st) = Some (Scalar s) ->
     s < 0 -> 0 < v ->
     exists x : R,
       fst (apply_calibration ZScalingCalibrator
              (mkUncertaintyPredictor preds [[v]]) st) =
         Ok (preds, Array2 [[x]]) /\
       x < 0).
Proof.
  split.
  - intros s out. apply spread_nonneg_of_scaling_nonneg.
  - intros s v preds Hs Hneg Hv. exists (sqrt v * s). split.
    + destruct st as [c l]. now apply ZScaling_spread_single.
    + now apply sqrt_times_negative.
Qed.

(** X9.  A percentile outside [0, 100] is found by [np.percentile] only:
    on well-shaped regression data the constructor of a
    [ZelikmanCalibrator] gets as far as [calibrate] and raises its
    [ValueError] there, with the predictor stored and no scaling or label. *)
Theorem Zelikman_percentile_out_of_range
    (kw : kwargs) (predictor : UncertaintyPredictor) (N T : nat) :
  uncertainty_predictor_builder
    (arg_calibration_data kw) (arg_models kw) (arg_scalers kw)
    (arg_dataset_type kw) (arg_batch_size kw) (arg_num_workers kw)
    (arg_loss_function kw) (arg_uncertainty_method kw) = Ok predictor ->
  arg_dataset_type kw = "regression" ->
  (1 <= N)%nat ->
  (arg_interval_percentile kw < 0 \/ 100 < arg_interval_percentile kw)%Z ->
  has_shape N T (get_uncal_preds predictor) ->
  has_shape N T (get_uncal_vars predictor) ->
  has_shape N T (targets (arg_calibration_data kw)) ->
  construct ZelikmanCalibrator kw =
    (Raise (ValueError "Percentiles must be in the range [0, 100]"),
     ready_to_calibrate kw predictor) /\
  new ZelikmanCalibrator kw =
    Raise (ValueError "Percentiles must be in the range [0, 100]").
Proof.
  intros Hb Hd HN Hq Hp Hv Ht.
  assert (Hcal : calibrate ZelikmanCalibrator (ready_to_calibrate kw predictor) =
                 (Raise (ValueError "Percentiles must be in the range [0, 100]"),
                  ready_to_calibrate kw predictor)).
  { destruct (abs_zscore_matrix N T _ _ _ HN Hp Ht Hv) as (zs & Hzs & _ & _).
    unfold calibrate, ZelikmanCalibrator_calibrate, ready_to_calibrate.
    unfold_M. cbn [self log configured set_calibration_predictor
                   calibration_predictor calibration_data interval_percentile].
    unfold rbind in Hzs.
    destruct (np_subtract _ _) as [difference|e]; [|discriminate Hzs].
    rewrite Hzs. unfold np_percentile_axis0_keepdims.
    replace ((0 <=? arg_interval_percentile kw)%Z &&
             (arg_interval_percentile kw <=? 100)%Z) with false; [reflexivity|].
    symmetry. apply andb_false_iff.
    destruct Hq as [Hq|Hq]; [left; apply Z.leb_gt | right; apply Z.leb_gt]; lia. }
  unfold new. rewrite construct_unfold, Hb, Hd.
  cbn [String.eqb Ascii.eqb Bool.eqb]. rewrite Hcal. split; reflexivity.
Qed.


(** *** The calibrated spread, entry by entry *)

(** The factor [apply_calibration] takes from a raw variance before it
    multiplies by the scaling. *)
Definition raw_spread (cls : calibrator_class) (kw : kwargs) (v : R) : R :=
  match cls with
  | TScalingCalibrator =>
      sqrt (v / IZR (Z.of_nat (List.length (arg_models kw)) - 1))
  | _ => sqrt v
  end.

(** X10.  For a constructed [ZScalingCalibrator] or [TScalingCalibrator]
    and evaluation variances of shape (N, T), N >= 1, [apply_calibration]
    returns a spread of the same shape (N, T); its entry (i, j) is
    sqrt(variance) * scaling, with the variance divided by num_models - 1
    first for the T-scaling class. *)
Theorem scalar_spread_entries
    (cls : calibrator_class) (kw : kwargs) (c : Calibrator)
    (p : UncertaintyPredictor) (l : list event) (N T : nat) :
  cls <> ZelikmanCalibrator ->
  new cls kw = Ok c ->
  (1 <= N)%nat ->
  has_shape N T (get_uncal_vars p) ->
  exists (s : R) (spread : matrix),
    scaling c = Some (Scalar s) /\
    fst (apply_calibration cls p (mkState c l)) =
      Ok (get_uncal_preds p, Array2 spread) /\
    has_shape N T spread /\
    forall i j, (i < N)%nat -> (j < T)%nat ->
      entry spread i j = raw_spread cls kw (entry (get_uncal_vars p) i j) * s.
Proof.
  intros Hcls Hnew HN Hshape.
  destruct (new_fitted cls kw c Hnew) as (p' & s' & _ & Hs & Hn & _ & Hscalar).
  destruct (Hscalar Hcls) as [s ->]. exists s.
  pose proof (has_shape_np_array N T _ Hshape HN) as Harray.
  destruct cls; [| |congruence]; cbn [apply_calibration raw_spread].
  - unfold ZScalingCalibrator_apply_calibration. unfold_M. cbn [self].
    rewrite Hs, Harray. unfold np_multiply. rewrite np_binop_scalar_r.
    cbn [np_sqrt np_map fst].
    eexists. split; [reflexivity|]. split; [reflexivity|]. split.
    + now do 2 apply map_map_shape.
    + intros i j Hi Hj.
      rewrite (entry_map_map _ N T) by (try apply map_map_shape; assumption).
      now rewrite (entry_map_map sqrt N T).
  - unfold TScalingCalibrator_apply_calibration. unfold_M. cbn [self].
    rewrite Hn. cbn [self]. rewrite Hs, Harray, np_divide_scalar.
    cbn [rbind]. unfold np_multiply. rewrite np_binop_scalar_r.
    cbn [np_sqrt np_map fst].
    eexists. split; [reflexivity|]. split; [reflexivity|]. split.
    + now do 3 apply map_map_shape.
    + intros i j Hi Hj.
      rewrite (entry_map_map _ N T)
        by (try do 2 apply map_map_shape; assumption).
      rewrite (entry_map_map sqrt N T) by (try apply map_map_shape; assumption).
      now rewrite (entry_map_map _ N T).
Qed.

Lemma map_zip_row_shape (op : R -> R -> R) (N T : nat) (a : matrix) (row : list R) :
  has_shape N T a -> List.length row = T ->
  has_shape N T (map (fun u => zip_with op u row) a).
Proof.
  intros [Ha Fa] Hrow. split; [now rewrite length_map|].
  apply Forall_map. eapply Forall_impl; [|exact Fa].
  intros u Hu. cbn beta. rewrite zip_with_length; congruence.
Qed.

Lemma entry_map_zip_row (op : R -> R -> R) (N T : nat) (a : matrix)
    (row : list R) (i j : nat) :
  has_shape N T a -> List.length row = T -> (i < N)%nat -> (j < T)%nat ->
  entry (map (fun u => zip_with op u row) a) i j = op (entry a i j) (nth j row 0).
Proof.
  intros Ha Hrow Hi Hj. unfold entry.
  pose proof (has_shape_nth N T a i Ha Hi) as Hla.
  destruct Ha as [Ha _].
  rewrite (nth_indep (map (fun u => zip_with op u row) a) []
             ((fun u => zip_with op u row) []))
    by (rewrite length_map; lia).
  rewrite (map_nth (fun u => zip_with op u row) a []).
  unfold zip_with.
  rewrite (nth_indep _ 0 (op 0 0))
    by (rewrite length_map, length_combine; lia).
  rewrite (map_nth (fun xy => op (fst xy) (snd xy)) _ (0, 0)).
  rewrite combine_nth by congruence. reflexivity.
Qed.

(** X11.  With a scaling of one row of T entries, as the Zelikman
    calibrator stores it, and evaluation variances of shape (N, T), N >= 1,
    [apply_calibration] returns a spread of shape (N, T) whose entry (i, j)
    is sqrt(variance (i, j)) times entry j of the scaling: each task is
    scaled by its own factor. *)
Theorem Zelikman_spread_entries
    (p : UncertaintyPredictor) (st : state) (row : list R) (N T : nat) :
  scaling (self st) = Some (Array2 [row]) ->
  List.length row = T ->
  (1 <= N)%nat ->
  has_shape N T (get_uncal_vars p) ->
  exists spread : matrix,
    fst (apply_calibration ZelikmanCalibrator p st) =
      Ok (get_uncal_preds p, Array2 spread) /\
    has_shape N T spread /\
    forall i j, (i < N)%nat -> (j < T)%nat ->
      entry spread i j = sqrt (entry (get_uncal_vars p) i j) * nth j row 0.
Proof.
  intros Hs Hrow HN Hshape.
  pose proof (map_map_shape sqrt N T _ Hshape) as Hsqrt.
  cbn [apply_calibration]. unfold ZelikmanCalibrator_apply_calibration.
  unfold_M. rewrite Hs.
  rewrite (has_shape_np_array N T _ Hshape HN).
  unfold np_multiply. cbn [np_sqrt np_map np_binop].
  rewrite (broadcast2_row Rmult N T) by assumption.
  cbn [rmap rbind fst].
  eexists. split; [reflexivity|]. split.
  - now apply map_zip_row_shape.
  - intros i j Hi Hj.
    rewrite (entry_map_zip_row Rmult N T) by assumption.
    now rewrite (entry_map_map sqrt N T).
Qed.

Lemma broadcast_mismatch {A B C : Type} (f : A -> B -> result C)
    (a : list A) (b : list B) :
  (2 <= List.length a)%nat -> (2 <= List.length b)%nat ->
  List.length a <> List.length b ->
  broadcast f a b = Raise broadcast_error.
Proof.
  intros Ha Hb Hne. unfold broadcast.
  destruct a as [|x [|x' a]]; cbn in Ha; try lia.
  destruct b as [|y [|y' b]]; cbn in Hb; try lia.
  apply Nat.eqb_neq in Hne. now rewrite Hne.
Qed.

(** X12.  An evaluation set with another number of tasks than the
    calibration set is refused by broadcasting: with a scaling of one row of
    T >= 2 entries and evaluation variances of shape (N, T'), N >= 1,
    T' >= 2, T' <> T, [apply_calibration] raises numpy's [ValueError] and
    returns nothing. *)
Theorem Zelikman_apply_task_mismatch
    (p : UncertaintyPredictor) (st : state) (row : list R) (N T' : nat) :
  scaling (self st) = Some (Array2 [row]) ->
  (1 <= N)%nat ->
  has_shape N T' (get_uncal_vars p) ->
  (2 <= T')%nat -> (2 <= List.length row)%nat -> T' <> List.length row ->
  apply_calibration ZelikmanCalibrator p st = (Raise broadcast_error, st).
Proof.
  intros Hs HN Hshape HT' HT Hne.
  cbn [apply_calibration]. unfold ZelikmanCalibrator_apply_calibration.
  unfold_M. rewrite Hs.
  rewrite (has_shape_np_array N T' _ Hshape HN).
  unfold np_multiply. cbn [np_sqrt np_map np_binop].
  unfold broadcast2. rewrite broadcast_singleton_r.
  destruct Hshape as [Hlen Frows].
  destruct (get_uncal_vars p) as [|u rows]; [cbn in Hlen; lia|].
  inversion Frows as [|? ? Hu _]; subst.
  cbn [map mapM]. unfold broadcast1 at 1.
  rewrite broadcast_mismatch by (rewrite ?length_map; assumption).
  reflexivity.
Qed.

(** X13.  On the same calibration data, the spread of the calibrator fitted
    in interval mode is the spread of the calibrator fitted in stdev mode
    times the quantile multiplier of its class: sqrt(2) * erfinv(p / 100)
    for Z-scaling, t_ppf((p / 100 + 1) / 2, num_models - 1) for T-scaling. *)
Theorem interval_spread_is_stdev_spread_times_quantile
    (cls : calibrator_class) (kw : kwargs) (c c' : Calibrator)
    (p : UncertaintyPredictor) (l : list event) :
  cls <> ZelikmanCalibrator ->
  new cls (with_metric "stdev" kw) = Ok c ->
  new cls (with_metric "interval" kw) = Ok c' ->
  fst (apply_calibration cls p (mkState c' l)) =
  rmap (scale_spread (interval_multiplier cls kw))
    (fst (apply_calibration cls p (mkState c l))).
Proof.
  intros Hcls Hc Hc'.
  pose proof (new_modes cls kw Hcls) as H. rewrite Hc, Hc' in H.
  destruct H as (s & Hs & Hs').
  destruct (new_fitted _ _ _ Hc) as (_ & _ & _ & _ & Hn & _ & _).
  destruct (new_fitted _ _ _ Hc') as (_ & _ & _ & _ & Hn' & _ & _).
  cbn [with_metric arg_models] in Hn, Hn'.
  destruct cls; [| |congruence]; cbn [apply_calibration interval_multiplier].
  - unfold ZScalingCalibrator_apply_calibration. unfold_M. cbn [self].
    rewrite Hs, Hs'. unfold np_multiply. rewrite !np_binop_scalar_r.
    unfold scale_spread, interval_multiplier. cbn [fst rmap rbind snd].
    do 2 f_equal. rewrite np_map_compose. apply np_map_ext. intros x. ring.
  - unfold TScalingCalibrator_apply_calibration. unfold_M. cbn [self].
    rewrite Hn, Hn'. cbn [self]. rewrite Hs, Hs', np_divide_scalar.
    cbn [rbind]. unfold np_multiply. rewrite !np_binop_scalar_r.
    unfold scale_spread, interval_multiplier. cbn [fst rmap rbind snd].
    do 2 f_equal. rewrite np_map_compose. apply np_map_ext. intros x. ring.
Qed.


(** *** Order statistics *)

Lemma insert_sorted_In (x y : R) (l : list R) :
  In y (insert_sorted x l) <-> y = x \/ In y l.
Proof.
  induction l as [|z l IH]; cbn.
  - intuition congruence.
  - destruct (Rle_dec x z); cbn; rewrite ?IH; intuition congruence.
Qed.

Lemma sort_list_In (y : R) (l : list R) : In y (sort_list l) <-> In y l.
Proof.
  induction l as [|x l IH]; cbn; [reflexivity|].
  rewrite insert_sorted_In, IH. intuition congruence.
Qed.

Lemma insert_sorted_length (x : R) (l : list R) :
  List.length (insert_sorted x l) = S (List.length l).
Proof.
  induction l as [|z l IH]; cbn; [reflexivity|].
  destruct (Rle_dec x z); cbn; [reflexivity | now rewrite IH].
Qed.

Lemma sort_list_length (l : list R) : List.length (sort_list l) = List.length l.
Proof.
  induction l as [|x l IH]; cbn; [reflexivity|].
  now rewrite insert_sorted_length, IH.
Qed.

Lemma insert_sorted_sorted (x : R) (l : list R) :
  StronglySorted Rle l -> StronglySorted Rle (insert_sorted x l).
Proof.
  induction 1 as [|z l Hl IH Hz]; cbn.
  - repeat constructor.
  - destruct (Rle_dec x z) as [Hxz|Hxz].
    + constructor; [now constructor|].
      constructor; [exact Hxz|].
      eapply Forall_impl; [|exact Hz]. intros w Hw. cbn in Hw. lra.
    + constructor; [exact IH|].
      apply Forall_forall. intros w Hw.
      apply insert_sorted_In in Hw as [->|Hw]; [lra|].
      rewrite Forall_forall in Hz. now apply Hz.
Qed.

Lemma sort_list_sorted (l : list R) : StronglySorted Rle (sort_list l).
Proof.
  induction l as [|x l IH]; cbn; [constructor|].
  now apply insert_sorted_sorted.
Qed.

Lemma sorted_nth_le (s : list R) (i j : nat) :
  StronglySorted Rle s -> (i <= j)%nat -> (j < List.length s)%nat ->
  nth i s 0 <= nth j s 0.
Proof.
  intros Hs. revert i j.
  induction Hs as [|x s Hs IH Hx]; intros i j Hij Hj; [cbn in Hj; lia|].
  destruct i as [|i], j as [|j]; cbn in *; try lia.
  - lra.
  - rewrite Forall_forall in Hx. apply Hx, nth_In. lia.
  - apply IH; lia.
Qed.

(** The two order statistics the percentile interpolates between. *)
Lemma percentile_list_between (q : Z) (l : list R) :
  (1 <= List.length l)%nat -> (0 <= q <= 100)%Z ->
  exists lo hi : nat,
    (lo <= hi)%nat /\ (hi < List.length l)%nat /\
    nth lo (sort_list l) 0 <= percentile_list q l <= nth hi (sort_list l) 0.
Proof.
  intros Hn Hq. unfold percentile_list.
  set (n := List.length l) in *.
  set (h := ((Z.of_nat n - 1) * q)%Z).
  assert (Hh : (0 <= h / 100 <= Z.of_nat n - 1)%Z).
  { subst h. split.
    - apply Z.div_pos; [|lia]. apply Z.mul_nonneg_nonneg; lia.
    - apply Z.div_le_upper_bound; [lia|]. nia. }
  set (lo := Z.to_nat (h / 100)).
  assert (Hlo : (lo <= n - 1)%nat) by (subst lo; lia).
  exists lo, (Nat.min (S lo) (n - 1)).
  assert (Hhi : (lo <= Nat.min (S lo) (n - 1))%nat) by lia.
  split; [exact Hhi|]. split; [lia|].
  assert (Hle : nth lo (sort_list l) 0 <=
                nth (Nat.min (S lo) (n - 1)) (sort_list l) 0).
  { apply sorted_nth_le; [apply sort_list_sorted | exact Hhi |].
    rewrite sort_list_length. fold n. lia. }
  assert (Hg : 0 <= IZR (h mod 100) / 100 <= 1).
  { pose proof (Z.mod_pos_bound h 100 ltac:(lia)) as [H0 H1].
    apply IZR_le in H0. apply IZR_lt in H1. lra. }
  nra.
Qed.

Lemma percentile_list_100 (l : list R) :
  (1 <= List.length l)%nat ->
  percentile_list 100 l = nth (List.length l - 1) (sort_list l) 0.
Proof.
  intros Hn. unfold percentile_list.
  rewrite Z.div_mul, Z.mod_mul by lia.
  replace (Z.to_nat (Z.of_nat (List.length l) - 1)) with (List.length l - 1)%nat
    by lia.
  unfold Rdiv. ring.
Qed.

(** The 100th percentile is at least every value of the list. *)
Lemma percentile_list_100_upper (l : list R) (x : R) :
  In x l -> x <= percentile_list 100 l.
Proof.
  intros Hx.
  assert (Hn : (1 <= List.length l)%nat)
    by (destruct l; [contradiction | cbn; lia]).
  rewrite percentile_list_100 by exact Hn.
  apply sort_list_In in Hx.
  destruct (In_nth _ _ 0 Hx) as (k & Hk & <-).
  rewrite sort_list_length in Hk.
  apply sorted_nth_le; [apply sort_list_sorted | lia |].
  rewrite sort_list_length. lia.
Qed.

Lemma nth_map_seq (f : nat -> R) (n j : nat) :
  (j < n)%nat -> nth j (map f (seq 0 n)) 0 = f j.
Proof.
  intros Hj.
  rewrite (nth_indep _ 0 (f 0%nat)) by (now rewrite length_map, length_seq).
  rewrite (map_nth f (seq 0 n) 0%nat), seq_nth by exact Hj. reflexivity.
Qed.




(** *** What the minimiser is given *)

(** The objective [ZScalingCalibrator.calibrate] hands to [fmin], as a
    function of the arrays it closes over. *)
Definition ZScaling_objective (uncal_vars errors scaler_values : ndarray)
  : result ndarray :=
  let* scaled_vars := np_multiply uncal_vars (np_square scaler_values) in
  let* quadratic :=
    np_divide (np_square errors) (np_map (fun x => 2 * x) scaled_vars) in
  let* nll :=
    np_add (np_map (fun x => x / 2)
              (np_log (np_map (fun x => 2 * np_pi * x) scaled_vars)))
           quadratic in
  np_sum_axis0 nll.

(** The objective [TScalingCalibrator.calibrate] hands to [fmin]. *)
Definition TScaling_objective (std_error_of_mean errors : ndarray) (df : R)
    (scaler_values : ndarray) : result ndarray :=
  let* scaled_std := np_multiply std_error_of_mean scaler_values in
  let* likelihood :=
    np_binop (fun x scale => t_pdf x df scale) errors scaled_std in
  np_sum_axis0 (np_map (fun x => -1 * x) (np_log likelihood)).

(** The negative log-likelihood of task [t] under a Gaussian whose variance
    is the raw variance times the square of the scale [s_t]:
    the sum over the examples of log(2 pi s^2 v) / 2 + e^2 / (2 s^2 v). *)
Definition gaussian_nll (N : nat) (preds targets_ vars : matrix) (s : list R)
    (t : nat) : R :=
  sum_list
    (map (fun i =>
            ln (2 * PI * (entry vars i t * nth t s 0 ^ 2)) / 2 +
            (entry preds i t - entry targets_ i t) ^ 2 /
            (2 * (entry vars i t * nth t s 0 ^ 2)))
         (seq 0 N)).

(** The negative log-likelihood of task [t] under a Student t distribution
    with [df] degrees of freedom and scale sqrt(v / df) * s_t. *)
Definition student_nll (N : nat) (preds targets_ vars : matrix) (df : R)
    (s : list R) (t : nat) : R :=
  sum_list
    (map (fun i =>
            -1 * ln (t_pdf (entry preds i t - entry targets_ i t) df
                       (sqrt (entry vars i t / df) * nth t s 0)))
         (seq 0 N)).

(** The starting point of the minimiser: for each task the population
    standard deviation of the scores error / denominator. *)
Definition initial_scales (N T : nat) (preds targets_ : matrix)
    (denominator : nat -> nat -> R) : list R :=
  map (fun t =>
         std_list (map (fun i =>
                          (entry preds i t - entry targets_ i t) / denominator i t)
                       (seq 0 N)))
      (seq 0 T).

(** A reduction along axis 0, column by column. *)
Lemma reduce_columns (f : list R -> R) (N T : nat) (zs : matrix)
    (F : nat -> nat -> R) :
  (1 <= N)%nat ->
  has_shape N T zs ->
  (forall i j, (i < N)%nat -> (j < T)%nat -> entry zs i j = F i j) ->
  map f (columns zs) =
  map (fun t => f (map (fun i => F i t) (seq 0 N))) (seq 0 T).
Proof.
  intros HN Hz HF.
  unfold columns. rewrite (has_shape_ncols N T) by assumption.
  rewrite map_map. apply map_ext_in. intros j Hj.
  apply in_seq in Hj. f_equal.
  rewrite (column_entries N T) by assumption.
  apply map_ext_in. intros i Hi. apply in_seq in Hi.
  apply HF; lia.
Qed.

Lemma nth_map_default (f : R -> R) (l : list R) (j : nat) :
  (j < List.length l)%nat -> nth j (map f l) 0 = f (nth j l 0).
Proof.
  intros Hj. rewrite (nth_indep _ 0 (f 0)) by (now rewrite length_map).
  apply map_nth.
Qed.

(** X16.  The objective of the Z-scaling fit is the Gaussian negative
    log-likelihood, task by task: on calibration data of shape (N, T),
    N >= 1, its value at scales s_1 .. s_T is the array of the T sums
    over the examples of log(2 pi s_t^2 v) / 2 + e^2 / (2 s_t^2 v). *)
Theorem ZScaling_objective_is_gaussian_nll
    (N T : nat) (preds targets_ vars : matrix) (s : list R) :
  (1 <= N)%nat ->
  has_shape N T preds -> has_shape N T targets_ -> has_shape N T vars ->
  List.length s = T ->
  ZScaling_objective (Array2 vars) (Array2 (zip_with2 Rminus preds targets_))
    (Array1 s) =
  Ok (Array1 (map (gaussian_nll N preds targets_ vars s) (seq 0 T))).
Proof.
  intros HN Hp Ht Hv Hs.
  pose proof (zip_with2_shape Rminus N T _ _ Hp Ht) as He.
  unfold ZScaling_objective, np_multiply, np_divide, np_add, np_square,
    np_log, np_sum_axis0.
  cbn [np_map np_binop].
  rewrite (broadcast2_row Rmult N T) by (try rewrite length_map; assumption).
  cbn [rmap rbind np_map np_binop].
  set (sv := map (fun u => zip_with Rmult u (map (fun x => x ^ 2) s)) vars).
  assert (Hsv : has_shape N T sv)
    by (apply map_zip_row_shape; [assumption | now rewrite length_map]).
  assert (Hsv_entry : forall i j, (i < N)%nat -> (j < T)%nat ->
            entry sv i j = entry vars i j * nth j s 0 ^ 2).
  { intros i j Hi Hj. unfold sv.
    rewrite (entry_map_zip_row Rmult N T)
      by (try rewrite length_map; assumption).
    now rewrite nth_map_default by lia. }
  rewrite (broadcast2_same_shape Rdiv N T)
    by (apply map_map_shape; assumption).
  cbn [rmap rbind np_map np_binop].
  rewrite (broadcast2_same_shape Rplus N T)
    by (try apply zip_with2_shape; repeat apply map_map_shape; assumption).
  cbn [rmap rbind np_reduce_axis0]. do 2 f_equal.
  apply (reduce_columns sum_list N T); [exact HN | |].
  - apply zip_with2_shape; [|apply zip_with2_shape];
      repeat apply map_map_shape; assumption.
  - intros i j Hi Hj.
    rewrite (entry_zip_with2 Rplus N T)
      by (try apply zip_with2_shape; repeat apply map_map_shape; assumption).
    rewrite (entry_zip_with2 Rdiv N T)
      by (try apply map_map_shape; assumption).
    rewrite !(entry_map_map _ N T)
      by (repeat apply map_map_shape; assumption).
    rewrite Hsv_entry by assumption.
    rewrite (entry_zip_with2 Rminus N T) by assumption.
    reflexivity.
Qed.


(** The outcome of a fit once [fmin] has been called: [sol[0]] is stored,
    as it is in stdev mode or times [multiplier] otherwise. *)
Definition store_fit (kw : kwargs) (predictor : UncertaintyPredictor)
    (multiplier : R -> R) (fmin_result : result (list R)) : result unit * state :=
  match fmin_result with
  | Ok sol =>
      match index0 sol with
      | Ok stdev_scaling =>
          (Ok tt,
           mkState
             (set_scaling
                (Scalar
                   (if String.eqb (arg_regression_calibrator_metric kw) "stdev"
                    then stdev_scaling
                    else multiplier stdev_scaling))
                (self (ready_to_calibrate kw predictor)))
             (log (ready_to_calibrate kw predictor)))
      | Raise e => (Raise e, ready_to_calibrate kw predictor)
      end
  | Raise e => (Raise e, ready_to_calibrate kw predictor)
  end.

(** The steps of [ZScalingCalibrator.calibrate] on data of shape (N, T) up
    to the call of [fmin]: the goal is left at the call, with the objective
    and the initial guess folded. *)
Ltac ZScaling_reach_fmin N T kw predictor Hp Hv Ht :=
  pose proof (zip_with2_shape Rminus N T _ _ Hp Ht);
  pose proof (map_map_shape sqrt N T _ Hv);
  unfold calibrate, ZScalingCalibrator_calibrate, ready_to_calibrate;
  unfold_M;
  cbn [self log configured set_calibration_predictor
       calibration_predictor calibration_data interval_percentile
       regression_calibrator_metric];
  rewrite !(has_shape_np_array N T) by assumption;
  unfold np_subtract; cbn [np_binop];
  rewrite (broadcast2_same_shape Rminus N T) by assumption;
  cbn [rmap rbind];
  unfold np_divide at 1; cbn [np_sqrt np_map np_binop];
  rewrite (broadcast2_same_shape Rdiv N T) by assumption;
  cbn [rmap rbind]; unfold np_std_axis0_keepdims; cbn [np_reduce_axis0];
  rewrite (reduce_columns std_list N T _
             (fun i t => (entry (get_uncal_preds predictor) i t -
                          entry (targets (arg_calibration_data kw)) i t) /
                         sqrt (entry (get_uncal_vars predictor) i t)));
  [ fold (initial_scales N T (get_uncal_preds predictor)
            (targets (arg_calibration_data kw))
            (fun i t => sqrt (entry (get_uncal_vars predictor) i t)));
    change (fun scaler_values : ndarray => _)
      with (ZScaling_objective (Array2 (get_uncal_vars predictor))
              (Array2 (zip_with2 Rminus (get_uncal_preds predictor)
                         (targets (arg_calibration_data kw)))))
  | assumption
  | now apply zip_with2_shape
  | intros ? ? ? ?;
    rewrite (entry_zip_with2 Rdiv N T) by assumption;
    rewrite (entry_map_map sqrt N T) by assumption;
    now rewrite (entry_zip_with2 Rminus N T) ].

(** X17.  On calibration data of shape (N, T), N >= 1,
    [ZScalingCalibrator.calibrate] calls [fmin] with the Gaussian objective
    over the raw variances and the errors prediction - target, started at
    the row of the per-task population standard deviations of the z-scores
    error / sqrt(variance); it stores the first component of the result
    (times erfinv(p / 100) * sqrt(2) unless the metric is 'stdev'), and an
    exception of [fmin] or an empty result leaves the scaling unset. *)
Theorem ZScaling_calibrate_calls_fmin
    (kw : kwargs) (predictor : UncertaintyPredictor) (N T : nat) :
  (1 <= N)%nat ->
  has_shape N T (get_uncal_preds predictor) ->
  has_shape N T (get_uncal_vars predictor) ->
  has_shape N T (targets (arg_calibration_data kw)) ->
  calibrate ZScalingCalibrator (ready_to_calibrate kw predictor) =
  store_fit kw predictor
    (fun s => s * erfinv (IZR (arg_interval_percentile kw) / 100) * sqrt 2)
    (fmin
       (ZScaling_objective
          (Array2 (get_uncal_vars predictor))
          (Array2 (zip_with2 Rminus (get_uncal_preds predictor)
                     (targets (arg_calibration_data kw)))))
       (Array2 [initial_scales N T (get_uncal_preds predictor)
                  (targets (arg_calibration_data kw))
                  (fun i t => sqrt (entry (get_uncal_vars predictor) i t))])).
Proof.
  intros HN Hp Hv Ht.
  unfold store_fit.
  ZScaling_reach_fmin N T kw predictor Hp Hv Ht.
  destruct (fmin _ _) as [sol|e]; [|reflexivity].
  cbn [self log].
  destruct (index0 sol) as [x|e]; [|reflexivity].
  cbn [self log regression_calibrator_metric interval_percentile].
  destruct (String.eqb (arg_regression_calibrator_metric kw) "stdev");
    reflexivity.
Qed.


(** X18.  The objective of the T-scaling fit is the negative Student t
    log-likelihood, task by task: on calibration data of shape (N, T),
    N >= 1, its value at scales s_1 .. s_T is the array of the T sums over
    the examples of - log t_pdf(e, df, scale = sqrt(v / df) * s_t). *)
Theorem TScaling_objective_is_student_nll
    (N T : nat) (preds targets_ vars : matrix) (df : R) (s : list R) :
  (1 <= N)%nat ->
  has_shape N T preds -> has_shape N T targets_ -> has_shape N T vars ->
  List.length s = T ->
  TScaling_objective
    (Array2 (map (map sqrt) (map (map (fun x => x / df)) vars)))
    (Array2 (zip_with2 Rminus preds targets_)) df (Array1 s) =
  Ok (Array1 (map (student_nll N preds targets_ vars df s) (seq 0 T))).
Proof.
  intros HN Hp Ht Hv Hs.
  pose proof (zip_with2_shape Rminus N T _ _ Hp Ht) as He.
  assert (Hse : has_shape N T (map (map sqrt) (map (map (fun x => x / df)) vars)))
    by (now do 2 apply map_map_shape).
  unfold TScaling_objective, np_multiply, np_log, np_sum_axis0.
  cbn [np_map np_binop].
  rewrite (broadcast2_row Rmult N T) by assumption.
  cbn [rmap rbind np_map np_binop].
  set (ss := map (fun u => zip_with Rmult u s)
               (map (map sqrt) (map (map (fun x => x / df)) vars))).
  assert (Hss : has_shape N T ss) by (now apply map_zip_row_shape).
  rewrite (broadcast2_same_shape _ N T) by assumption.
  cbn [rmap rbind np_map np_reduce_axis0]. do 2 f_equal.
  apply (reduce_columns sum_list N T); [exact HN | |].
  - do 2 apply map_map_shape. now apply zip_with2_shape.
  - intros i j Hi Hj.
    rewrite !(entry_map_map _ N T)
      by (try apply map_map_shape; try apply zip_with2_shape; assumption).
    rewrite (entry_zip_with2 _ N T) by assumption.
    unfold ss.
    rewrite (entry_map_zip_row Rmult N T) by assumption.
    rewrite (entry_map_map sqrt N T) by (try apply map_map_shape; assumption).
    rewrite (entry_map_map _ N T) by assumption.
    rewrite (entry_zip_with2 Rminus N T) by assumption.
    reflexivity.
Qed.

(** The steps of [TScalingCalibrator.calibrate] on data of shape (N, T) up
    to the call of [fmin], with [df] standing for num_models - 1. *)
Ltac TScaling_reach_fmin N T kw predictor df Hp Hv Ht :=
  pose proof (zip_with2_shape Rminus N T _ _ Hp Ht);
  pose proof (map_map_shape (fun x => x / df) N T _ Hv);
  assert (has_shape N T
            (map (map sqrt)
               (map (map (fun x => x / df)) (get_uncal_vars predictor))))
    by (apply map_map_shape; assumption);
  unfold calibrate, TScalingCalibrator_calibrate, ready_to_calibrate;
  unfold_M;
  cbn [self log configured set_calibration_predictor
       calibration_predictor calibration_data interval_percentile
       regression_calibrator_metric num_models];
  fold df;
  rewrite !(has_shape_np_array N T) by assumption;
  rewrite np_divide_scalar;
  cbn [self log configured set_calibration_predictor
       calibration_predictor calibration_data interval_percentile
       regression_calibrator_metric num_models];
  unfold np_subtract; cbn [np_binop];
  rewrite (broadcast2_same_shape Rminus N T) by assumption;
  cbn [rmap rbind];
  unfold np_divide at 1; cbn [np_sqrt np_map np_binop];
  rewrite (broadcast2_same_shape Rdiv N T) by assumption;
  cbn [rmap rbind]; unfold np_std_axis0_keepdims; cbn [np_reduce_axis0];
  rewrite (reduce_columns std_list N T _
             (fun i t => (entry (get_uncal_preds predictor) i t -
                          entry (targets (arg_calibration_data kw)) i t) /
                         sqrt (entry (get_uncal_vars predictor) i t / df)));
  [ fold (initial_scales N T (get_uncal_preds predictor)
            (targets (arg_calibration_data kw))
            (fun i t => sqrt (entry (get_uncal_vars predictor) i t / df)));
    change (fun scaler_values : ndarray => _)
      with (TScaling_objective
              (Array2 (map (map sqrt)
                         (map (map (fun x => x / df)) (get_uncal_vars predictor))))
              (Array2 (zip_with2 Rminus (get_uncal_preds predictor)
                         (targets (arg_calibration_data kw))))
              df)
  | assumption
  | now apply zip_with2_shape
  | intros ? ? ? ?;
    rewrite (entry_zip_with2 Rdiv N T) by assumption;
    rewrite (entry_map_map sqrt N T) by assumption;
    rewrite (entry_map_map _ N T) by assumption;
    now rewrite (entry_zip_with2 Rminus N T) ].

(** X19.  On calibration data of shape (N, T), N >= 1,
    [TScalingCalibrator.calibrate] calls [fmin] with the Student t objective
    for df = num_models - 1 over the standard errors sqrt(variance / df)
    and the errors prediction - target, started at the row of the per-task
    population standard deviations of the t-scores error / standard error;
    it stores the first component of the result (times
    t_ppf((p / 100 + 1) / 2, df) unless the metric is 'stdev'). *)
Theorem TScaling_calibrate_calls_fmin
    (kw : kwargs) (predictor : UncertaintyPredictor) (N T : nat) :
  let df := IZR (Z.of_nat (List.length (arg_models kw)) - 1) in
  (1 <= N)%nat ->
  has_shape N T (get_uncal_preds predictor) ->
  has_shape N T (get_uncal_vars predictor) ->
  has_shape N T (targets (arg_calibration_data kw)) ->
  calibrate TScalingCalibrator (ready_to_calibrate kw predictor) =
  store_fit kw predictor
    (fun s => s * t_ppf ((IZR (arg_interval_percentile kw) / 100 + 1) / 2) df)
    (fmin
       (TScaling_objective
          (Array2 (map (map sqrt)
                     (map (map (fun x => x / df)) (get_uncal_vars predictor))))
          (Array2 (zip_with2 Rminus (get_uncal_preds predictor)
                     (targets (arg_calibration_data kw))))
          df)
       (Array2 [initial_scales N T (get_uncal_preds predictor)
                  (targets (arg_calibration_data kw))
                  (fun i t => sqrt (entry (get_uncal_vars predictor) i t / df))])).
Proof.
  intros df HN Hp Hv Ht.
  unfold store_fit.
  TScaling_reach_fmin N T kw predictor df Hp Hv Ht.
  destruct (fmin _ _) as [sol|e]; [|reflexivity].
  cbn [self log].
  destruct (index0 sol) as [x|e]; [|reflexivity].
  cbn [self log regression_calibrator_metric interval_percentile].
  destruct (String.eqb (arg_regression_calibrator_metric kw) "stdev");
    reflexivity.
Qed.


(** What [calibrate] does with a minimiser that fails, for the two classes
    that call one. *)
Lemma calibrate_minimiser_failure
    (cls : calibrator_class) (kw : kwargs) (predictor : UncertaintyPredictor)
    (N T : nat) :
  cls <> ZelikmanCalibrator ->
  (1 <= N)%nat ->
  has_shape N T (get_uncal_preds predictor) ->
  has_shape N T (get_uncal_vars predictor) ->
  has_shape N T (targets (arg_calibration_data kw)) ->
  (forall e : exn,
     (forall f x0, fmin f x0 = Raise e) ->
     calibrate cls (ready_to_calibrate kw predictor) =
       (Raise e, ready_to_calibrate kw predictor)) /\
  ((forall f x0, fmin f x0 = Ok []) ->
   calibrate cls (ready_to_calibrate kw predictor) =
     (Raise (IndexError "index 0 is out of bounds for axis 0 with size 0"),
      ready_to_calibrate kw predictor)).
Proof.
  intros Hcls HN Hp Hv Ht.
  destruct cls; [| |contradiction].
  - split.
    + intros e Hfmin.
      ZScaling_reach_fmin N T kw predictor Hp Hv Ht.
      rewrite Hfmin. reflexivity.
    + intros Hfmin.
      ZScaling_reach_fmin N T kw predictor Hp Hv Ht.
      rewrite Hfmin. reflexivity.
  - pose (df := IZR (Z.of_nat (List.length (arg_models kw)) - 1)).
    split.
    + intros e Hfmin.
      TScaling_reach_fmin N T kw predictor df Hp Hv Ht.
      rewrite Hfmin. reflexivity.
    + intros Hfmin.
      TScaling_reach_fmin N T kw predictor df Hp Hv Ht.
      rewrite Hfmin. reflexivity.
Qed.


(** X21.  With more than one model, the T-scaling spread is the Z-scaling
    spread for the same scaling divided by sqrt(num_models - 1): the
    standard error of the mean replaces the standard deviation. *)
Theorem TScaling_spread_is_ZScaling_spread_over_sqrt_df
    (p : UncertaintyPredictor) (st : state) (n : Z) :
  num_models (self st) = Some n ->
  (1 < n)%Z ->
  fst (apply_calibration TScalingCalibrator p st) =
  rmap (scale_spread (/ sqrt (IZR (n - 1))))
    (fst (apply_calibration ZScalingCalibrator p st)).
Proof.
  intros Hn Hgt.
  assert (Hdf : 0 < IZR (n - 1)) by (apply IZR_lt; lia).
  cbn [apply_calibration].
  unfold TScalingCalibrator_apply_calibration,
    ZScalingCalibrator_apply_calibration.
  unfold_M. cbn beta. rewrite Hn.
  destruct (scaling (self st)) as [s|]; [|reflexivity].
  rewrite np_divide_scalar. cbn [rbind].
  replace (np_sqrt (np_map (fun x => x / IZR (n - 1)) (np_array (get_uncal_vars p))))
    with (np_map (Rmult (/ sqrt (IZR (n - 1)))) (np_sqrt (np_array (get_uncal_vars p)))).
  - rewrite np_multiply_scaled.
    destruct (np_multiply _ s); reflexivity.
  - unfold np_sqrt. rewrite !np_map_compose. apply np_map_ext. intros x.
    rewrite sqrt_div_alt by exact Hdf. unfold Rdiv. ring.
Qed.

End Calibrators.

Arguments mkKwargs {MoleculeModel StandardScaler}.
Arguments arg_uncertainty_method {MoleculeModel StandardScaler}.
Arguments arg_interval_percentile {MoleculeModel StandardScaler}.
Arguments arg_regression_calibrator_metric {MoleculeModel StandardScaler}.
Arguments arg_calibration_data {MoleculeModel StandardScaler}.
Arguments arg_models {MoleculeModel StandardScaler}.
Arguments arg_scalers {MoleculeModel StandardScaler}.
Arguments arg_dataset_type {MoleculeModel StandardScaler}.
Arguments with_metric {MoleculeModel StandardScaler}.
Arguments construct {MoleculeModel StandardScaler}.
Arguments new {MoleculeModel StandardScaler}.
Arguments uncertainty_calibrator_builder {MoleculeModel StandardScaler}.

(** ** Worked examples

    The collaborators are instantiated so that the theorems above can be
    run on concrete calibration sets.  The minimiser stops at its starting
    point, which is what [fmin] returns when it is given no iterations; the
    distribution functions are stand-ins, since no example depends on their
    values. *)

Definition fmin_at_start (func : ndarray -> result ndarray) (x0 : ndarray)
  : result (list R) :=
  Ok (np_flatten x0).

Definition erfinv_stand_in (x : R) : R := x.
Definition t_pdf_stand_in (x df scale : R) : R := 1.
Definition t_ppf_stand_in (q df : R) : R := q.

(** A calibration set with three examples and one task. *)
Definition one_task_predictor : UncertaintyPredictor :=
  mkUncertaintyPredictor [[1]; [3]; [2]] [[1]; [4]; [1]].

Definition one_task_data : MoleculeDataset :=
  mkMoleculeDataset [[0]; [1]; [2]].

Definition one_task_builder (test_data : MoleculeDataset)
    (models scalers : list unit) (dataset_type_ : string)
    (batch_size num_workers : Z) (loss_function uncertainty_method : string)
  : result UncertaintyPredictor :=
  Ok one_task_predictor.

Definition two_task_builder (test_data : MoleculeDataset)
    (models scalers : list unit) (dataset_type_ : string)
    (batch_size num_workers : Z) (loss_function uncertainty_method : string)
  : result UncertaintyPredictor :=
  Ok two_task_predictor.

(** Keyword arguments over the one-task set, with an ensemble of [models]. *)
Definition one_task_kwargs (metric dataset_type_ : string) (models : list unit)
  : kwargs unit unit :=
  mkKwargs "ensemble" 95%Z metric one_task_data models [] dataset_type_
    "mse" 50%Z 0%Z.

Definition two_task_kwargs (metric : string) : kwargs unit unit :=
  mkKwargs "ensemble" 95%Z metric two_task_data [tt; tt; tt; tt; tt] []
    "regression" "mse" 50%Z 0%Z.

Definition five_models : list unit := [tt; tt; tt; tt; tt].

(** An evaluation predictor with two examples and one task. *)
Definition evaluation_predictor : UncertaintyPredictor :=
  mkUncertaintyPredictor [[7]; [8]] [[4]; [9]].

(** The [ZScalingCalibrator] fitted on the one-task set, in stdev mode. *)
Definition fitted_zscaling : Calibrator :=
  match new one_task_builder fmin_at_start erfinv_stand_in t_pdf_stand_in
          t_ppf_stand_in ZScalingCalibrator
          (one_task_kwargs "stdev" "regression" five_models)
  with
  | Ok c => c
  | Raise _ => object
  end.

Lemma fitted_zscaling_constructed :
  new one_task_builder fmin_at_start erfinv_stand_in t_pdf_stand_in
    t_ppf_stand_in ZScalingCalibrator
    (one_task_kwargs "stdev" "regression" five_models) = Ok fitted_zscaling.
Proof. reflexivity. Qed.

(** On the two-task set, with this minimiser, [ZScalingCalibrator.calibrate]
    returns and the scaling it stores has shape (). *)
Example two_task_zscaling_scalar :
  fitted_shape
    (calibrate fmin_at_start erfinv_stand_in t_pdf_stand_in t_ppf_stand_in
       ZScalingCalibrator two_task_state) = Some [].
Proof. reflexivity. Qed.

(** Witness of C6: a classification dataset makes the constructor of a
    [ZelikmanCalibrator] raise during validation. *)
Lemma dataset_type_mismatch_rejected_witness :
  exists (msg : string) (st : state),
    construct one_task_builder fmin_at_start erfinv_stand_in t_pdf_stand_in
      t_ppf_stand_in ZelikmanCalibrator
      (one_task_kwargs "interval" "classification" five_models) =
      (Raise (ValueError msg), st) /\
    new one_task_builder fmin_at_start erfinv_stand_in t_pdf_stand_in
      t_ppf_stand_in ZelikmanCalibrator
      (one_task_kwargs "interval" "classification" five_models) =
      Raise (ValueError msg) /\
    log st = [EvStoreConfiguration; EvRaiseArgumentErrors] /\
    ~ In EvBuildPredictor (log st) /\
    ~ In EvCalibrate (log st) /\
    calibration_predictor (self st) = None /\
    scaling (self st) = None /\
    label (self st) = None.
Proof.
  apply (dataset_type_mismatch_rejected unit unit one_task_builder
           fmin_at_start erfinv_stand_in t_pdf_stand_in t_ppf_stand_in
           ZelikmanCalibrator
           (one_task_kwargs "interval" "classification" five_models)).
  discriminate.
Defined.

(** Witness of C9: the strategy name 'not_a_method' is rejected, and on a
    regression dataset with the metric 'stdev' the default is zscaling. *)
Lemma builder_unknown_strategy_and_default_witness :
  (exists msg : string,
     uncertainty_calibrator_builder one_task_builder fmin_at_start
       erfinv_stand_in t_pdf_stand_in t_ppf_stand_in (Some "not_a_method")
       (one_task_kwargs "stdev" "regression" five_models) =
       Raise (NotImplementedError msg) /\
     contains msg "not_a_method" /\
     contains msg "zscaling" /\
     contains msg "tscaling" /\
     contains msg "zelikman_interval") /\
  uncertainty_calibrator_builder one_task_builder fmin_at_start
    erfinv_stand_in t_pdf_stand_in t_ppf_stand_in None
    (one_task_kwargs "stdev" "regression" five_models) = Ok fitted_zscaling.
Proof.
  pose proof (builder_unknown_strategy_and_default unit unit one_task_builder
                fmin_at_start erfinv_stand_in t_pdf_stand_in t_ppf_stand_in
                (one_task_kwargs "stdev" "regression" five_models))
    as [Hunknown Hdefault].
  split.
  - apply Hunknown; discriminate.
  - destruct (Hdefault eq_refl) as [_ Hbuilder].
    rewrite Hbuilder. reflexivity.
Defined.

(** Witness of C10: no strategy name and a classification dataset. *)
Lemma builder_no_default_outside_regression_witness :
  uncertainty_calibrator_builder one_task_builder fmin_at_start
    erfinv_stand_in t_pdf_stand_in t_ppf_stand_in None
    (one_task_kwargs "stdev" "classification" five_models) =
  Raise (NotImplementedError
    "Calibrator type None is not currently supported. Avalable options are: dict_keys(['zscaling', 'tscaling', 'zelikman_interval'])").
Proof.
  apply (builder_no_default_outside_regression unit unit one_task_builder
           fmin_at_start erfinv_stand_in t_pdf_stand_in t_ppf_stand_in
           (one_task_kwargs "stdev" "classification" five_models)).
  discriminate.
Defined.

(** Counterexample to C2 as stated: a [TScalingCalibrator] over a regression
    dataset with a single model ([num_models = 1]) is not stopped by
    validation; the constructor goes on to the predictor builder and to
    [calibrate]. *)
Lemma TScaling_single_model_passes_validation :
  num_models
    (self (snd (construct one_task_builder fmin_at_start erfinv_stand_in
                  t_pdf_stand_in t_ppf_stand_in TScalingCalibrator
                  (one_task_kwargs "stdev" "regression" [tt])))) = Some 1%Z /\
  log (snd (construct one_task_builder fmin_at_start erfinv_stand_in
              t_pdf_stand_in t_ppf_stand_in TScalingCalibrator
              (one_task_kwargs "stdev" "regression" [tt]))) =
    [EvStoreConfiguration; EvRaiseArgumentErrors; EvBuildPredictor; EvCalibrate] /\
  ~ rejected_by_validation
      (construct one_task_builder fmin_at_start erfinv_stand_in
         t_pdf_stand_in t_ppf_stand_in TScalingCalibrator
         (one_task_kwargs "stdev" "regression" [tt])).
Proof.
  split; [reflexivity|]. split; [reflexivity|].
  intros [_ Hlog].
  destruct (construct_regression_log unit unit one_task_builder fmin_at_start
              erfinv_stand_in t_pdf_stand_in t_ppf_stand_in TScalingCalibrator
              (one_task_kwargs "stdev" "regression" [tt]) eq_refl)
    as [rest Hrest].
  rewrite Hrest in Hlog. discriminate Hlog.
Qed.

(** Witness of C2 as amended, on the same single-model arguments. *)
Lemma TScaling_validation_checks_dataset_type_only_witness :
  exists rest : list event,
    log (snd (construct one_task_builder fmin_at_start erfinv_stand_in
                t_pdf_stand_in t_ppf_stand_in TScalingCalibrator
                (one_task_kwargs "stdev" "regression" [tt]))) =
    EvStoreConfiguration :: EvRaiseArgumentErrors :: EvBuildPredictor :: rest.
Proof.
  apply (TScaling_validation_checks_dataset_type_only unit unit one_task_builder
           fmin_at_start erfinv_stand_in t_pdf_stand_in t_ppf_stand_in
           (one_task_kwargs "stdev" "regression" [tt])).
  reflexivity.
Defined.

(** Witness of C4: the Zelikman calibrator over the two-task set. *)
Lemma Zelikman_scaling_is_percentile_of_abs_zscores_witness :
  exists c : Calibrator,
    new two_task_builder fmin_at_start erfinv_stand_in t_pdf_stand_in
      t_ppf_stand_in ZelikmanCalibrator (two_task_kwargs "interval") = Ok c /\
    scaling c =
      Some (spec_zelikman_scaling 2 2 [[1; 2]; [3; 5]] [[0; 0]; [1; 1]]
              [[1; 4]; [1; 4]] 95).
Proof.
  apply (proj1 (Zelikman_scaling_is_percentile_of_abs_zscores unit unit
                  two_task_builder fmin_at_start erfinv_stand_in
                  t_pdf_stand_in t_ppf_stand_in (two_task_kwargs "interval"))
           two_task_predictor 2%nat 2%nat).
  - reflexivity.
  - reflexivity.
  - apply le_S, le_n.
  - split; discriminate.
  - split; [reflexivity | repeat constructor].
  - split; [reflexivity | repeat constructor].
  - split; [reflexivity | repeat constructor].
Defined.

(** Witness of C5: the Z-scaling calibrator over the one-task set, fitted in
    interval mode and in stdev mode. *)
Lemma interval_scaling_is_stdev_scaling_times_quantile_witness :
  exists c' : Calibrator,
    new one_task_builder fmin_at_start erfinv_stand_in t_pdf_stand_in
      t_ppf_stand_in ZScalingCalibrator
      (with_metric "interval" (one_task_kwargs "stdev" "regression" five_models)) =
      Ok c' /\
    exists (c : Calibrator) (s : R),
      new one_task_builder fmin_at_start erfinv_stand_in t_pdf_stand_in
        t_ppf_stand_in ZScalingCalibrator
        (with_metric "stdev" (one_task_kwargs "stdev" "regression" five_models)) =
        Ok c /\
      scaling c = Some (Scalar s) /\
      scaling c' = Some (Scalar (s * (sqrt 2 * erfinv_stand_in (95 / 100)))).
Proof.
  eexists. split; [reflexivity|].
  apply (proj1 (interval_scaling_is_stdev_scaling_times_quantile unit unit
                  one_task_builder fmin_at_start erfinv_stand_in
                  t_pdf_stand_in t_ppf_stand_in
                  (one_task_kwargs "stdev" "regression" five_models))).
  reflexivity.
Defined.

(** Witness of C7: the fitted Z-scaling calibrator applied to the evaluation
    predictor returns its predictions. *)
Lemma apply_calibration_returns_predictions_unchanged_witness :
  exists spread : ndarray,
    fst (apply_calibration ZScalingCalibrator evaluation_predictor
           (mkState fitted_zscaling [])) =
    Ok ([[7]; [8]], spread).
Proof.
  apply (proj1 (proj2 (proj2 (proj2
           (apply_calibration_returns_predictions_unchanged unit unit
              one_task_builder fmin_at_start erfinv_stand_in t_pdf_stand_in
              t_ppf_stand_in ZScalingCalibrator evaluation_predictor
              (mkState fitted_zscaling [])))))
           (one_task_kwargs "stdev" "regression" five_models)).
  - discriminate.
  - exact fitted_zscaling_constructed.
Defined.

(** Witness of C8: variances multiplied by 4, spreads multiplied by
    sqrt 4. *)
Lemma scaled_variances_scale_spread_witness :
  0 < 4 /\
  fst (apply_calibration ZScalingCalibrator
         (scale_variances 4 evaluation_predictor) (mkState fitted_zscaling [])) =
  rmap (scale_spread (sqrt 4))
    (fst (apply_calibration ZScalingCalibrator evaluation_predictor
            (mkState fitted_zscaling []))).
Proof.
  split; [lra|].
  apply (scaled_variances_scale_spread ZScalingCalibrator 4 evaluation_predictor
           (mkState fitted_zscaling [])).
  lra.
Defined.

(** ** Worked examples for the further properties *)

(** A predictor builder and a minimiser that fail. *)
Definition failing_builder (test_data : MoleculeDataset)
    (models scalers : list unit) (dataset_type_ : string)
    (batch_size num_workers : Z) (loss_function uncertainty_method : string)
  : result UncertaintyPredictor :=
  Raise (ValueError "no predictor").

Definition fmin_failing (func : ndarray -> result ndarray) (x0 : ndarray)
  : result (list R) :=
  Raise (ValueError "The user-provided objective function must return a scalar value.").

(** Keyword arguments over the two-task set with a given percentile. *)
Definition two_task_kwargs_at (percentile : Z) : kwargs unit unit :=
  mkKwargs "ensemble" percentile "interval" two_task_data five_models []
    "regression" "mse" 50%Z 0%Z.

(** An evaluation predictor with one example and two tasks, and one with
    three tasks. *)
Definition two_task_evaluation : UncertaintyPredictor :=
  mkUncertaintyPredictor [[7; 8]] [[4; 9]].

Definition three_task_evaluation : UncertaintyPredictor :=
  mkUncertaintyPredictor [[7; 8; 9]] [[4; 9; 1]].

(** An object whose scaling is the row (2, 3). *)
Definition row_scaled : state :=
  mkState (set_scaling (Array2 [[2; 3]]) object) [].

(** The [ZelikmanCalibrator] fitted on the two-task set. *)
Definition fitted_zelikman : Calibrator :=
  match new two_task_builder fmin_at_start erfinv_stand_in t_pdf_stand_in
          t_ppf_stand_in ZelikmanCalibrator (two_task_kwargs "interval")
  with
  | Ok c => c
  | Raise _ => object
  end.

Lemma fitted_zelikman_constructed :
  new two_task_builder fmin_at_start erfinv_stand_in t_pdf_stand_in
    t_ppf_stand_in ZelikmanCalibrator (two_task_kwargs "interval") =
  Ok fitted_zelikman.
Proof. reflexivity. Qed.

(** The [ZScalingCalibrator] fitted on the one-task set in interval mode. *)
Definition fitted_zscaling_interval : Calibrator :=
  match new one_task_builder fmin_at_start erfinv_stand_in t_pdf_stand_in
          t_ppf_stand_in ZScalingCalibrator
          (one_task_kwargs "interval" "regression" five_models)
  with
  | Ok c => c
  | Raise _ => object
  end.

Lemma fitted_zscaling_interval_constructed :
  new one_task_builder fmin_at_start erfinv_stand_in t_pdf_stand_in
    t_ppf_stand_in ZScalingCalibrator
    (one_task_kwargs "interval" "regression" five_models) =
  Ok fitted_zscaling_interval.
Proof. reflexivity. Qed.

Lemma two_task_shapes :
  has_shape 2 2 (get_uncal_preds two_task_predictor) /\
  has_shape 2 2 (get_uncal_vars two_task_predictor) /\
  has_shape 2 2 (targets two_task_data).
Proof. repeat split; repeat constructor. Qed.

Lemma one_task_shapes :
  has_shape 3 1 (get_uncal_preds one_task_predictor) /\
  has_shape 3 1 (get_uncal_vars one_task_predictor) /\
  has_shape 3 1 (targets one_task_data).
Proof. repeat split; repeat constructor. Qed.

(** Witness of X2: the predictor builder fails. *)
Lemma construct_propagates_exceptions_witness :
  construct failing_builder fmin_at_start erfinv_stand_in t_pdf_stand_in
    t_ppf_stand_in TScalingCalibrator
    (one_task_kwargs "stdev" "regression" five_models) =
    (Raise (ValueError "no predictor"),
     mkState (configured unit unit (one_task_kwargs "stdev" "regression" five_models))
       [EvStoreConfiguration; EvRaiseArgumentErrors; EvBuildPredictor]) /\
  new failing_builder fmin_at_start erfinv_stand_in t_pdf_stand_in
    t_ppf_stand_in TScalingCalibrator
    (one_task_kwargs "stdev" "regression" five_models) =
    Raise (ValueError "no predictor").
Proof.
  apply (proj1 (construct_propagates_exceptions unit unit failing_builder
                  fmin_at_start erfinv_stand_in t_pdf_stand_in t_ppf_stand_in
                  TScalingCalibrator
                  (one_task_kwargs "stdev" "regression" five_models)
                  (ValueError "no predictor") eq_refl)).
  reflexivity.
Defined.

(** Witness of X4: the builder called with 'zscaling'. *)
Lemma builder_returns_fitted_witness :
  dataset_type fitted_zscaling = Some "regression" /\
  num_models fitted_zscaling = Some 5%Z /\
  exists (cls : calibrator_class) (predictor : UncertaintyPredictor) (s : ndarray),
    new one_task_builder fmin_at_start erfinv_stand_in t_pdf_stand_in
      t_ppf_stand_in cls (one_task_kwargs "stdev" "regression" five_models) =
      Ok fitted_zscaling /\
    calibration_predictor fitted_zscaling = Some predictor /\
    scaling fitted_zscaling = Some s /\
    label fitted_zscaling =
      Some (label_of unit unit cls (one_task_kwargs "stdev" "regression" five_models)).
Proof.
  apply (builder_returns_fitted unit unit one_task_builder fmin_at_start
           erfinv_stand_in t_pdf_stand_in t_ppf_stand_in (Some "zscaling")
           (one_task_kwargs "stdev" "regression" five_models) fitted_zscaling).
  exact fitted_zscaling_constructed.
Defined.

(** Witness of X6: the metric 'quantile' is read as 'interval'. *)
Lemma metric_other_than_stdev_is_interval_witness :
  rmap scaling
    (new one_task_builder fmin_at_start erfinv_stand_in t_pdf_stand_in
       t_ppf_stand_in TScalingCalibrator
       (with_metric "quantile" (one_task_kwargs "stdev" "regression" five_models))) =
  rmap scaling
    (new one_task_builder fmin_at_start erfinv_stand_in t_pdf_stand_in
       t_ppf_stand_in TScalingCalibrator
       (with_metric "interval" (one_task_kwargs "stdev" "regression" five_models))) /\
  rmap label
    (new one_task_builder fmin_at_start erfinv_stand_in t_pdf_stand_in
       t_ppf_stand_in TScalingCalibrator
       (with_metric "quantile" (one_task_kwargs "stdev" "regression" five_models))) =
  rmap label
    (new one_task_builder fmin_at_start erfinv_stand_in t_pdf_stand_in
       t_ppf_stand_in TScalingCalibrator
       (with_metric "interval" (one_task_kwargs "stdev" "regression" five_models))).
Proof.
  apply (metric_other_than_stdev_is_interval unit unit one_task_builder
           fmin_at_start erfinv_stand_in t_pdf_stand_in t_ppf_stand_in
           TScalingCalibrator
           (one_task_kwargs "stdev" "regression" five_models) "quantile").
  discriminate.
Defined.


(** Witness of X9: the percentile 150. *)
Lemma Zelikman_percentile_out_of_range_witness :
  new two_task_builder fmin_at_start erfinv_stand_in t_pdf_stand_in
    t_ppf_stand_in ZelikmanCalibrator (two_task_kwargs_at 150) =
  Raise (ValueError "Percentiles must be in the range [0, 100]").
Proof.
  apply (Zelikman_percentile_out_of_range unit unit two_task_builder
           fmin_at_start erfinv_stand_in t_pdf_stand_in t_ppf_stand_in
           (two_task_kwargs_at 150) two_task_predictor 2%nat 2%nat).
  - reflexivity.
  - reflexivity.
  - apply le_S, le_n.
  - right. reflexivity.
  - apply two_task_shapes.
  - apply two_task_shapes.
  - apply two_task_shapes.
Defined.

(** Witness of X10: the fitted Z-scaling calibrator on two examples. *)
Lemma scalar_spread_entries_witness :
  exists (s : R) (spread : matrix),
    scaling fitted_zscaling = Some (Scalar s) /\
    fst (apply_calibration ZScalingCalibrator evaluation_predictor
           (mkState fitted_zscaling [])) =
      Ok (get_uncal_preds evaluation_predictor, Array2 spread) /\
    has_shape 2 1 spread /\
    forall i j, (i < 2)%nat -> (j < 1)%nat ->
      entry spread i j =
      raw_spread unit unit ZScalingCalibrator
        (one_task_kwargs "stdev" "regression" five_models)
        (entry (get_uncal_vars evaluation_predictor) i j) * s.
Proof.
  apply (scalar_spread_entries unit unit one_task_builder fmin_at_start
           erfinv_stand_in t_pdf_stand_in t_ppf_stand_in ZScalingCalibrator
           (one_task_kwargs "stdev" "regression" five_models) fitted_zscaling
           evaluation_predictor [] 2%nat 1%nat).
  - discriminate.
  - exact fitted_zscaling_constructed.
  - apply le_S, le_n.
  - split; [reflexivity | repeat constructor].
Defined.

(** Witness of X11: the row (2, 3) applied to one example of two tasks. *)
Lemma Zelikman_spread_entries_witness :
  exists spread : matrix,
    fst (apply_calibration ZelikmanCalibrator two_task_evaluation row_scaled) =
      Ok (get_uncal_preds two_task_evaluation, Array2 spread) /\
    has_shape 1 2 spread /\
    forall i j, (i < 1)%nat -> (j < 2)%nat ->
      entry spread i j =
      sqrt (entry (get_uncal_vars two_task_evaluation) i j) * nth j [2; 3] 0.
Proof.
  apply (Zelikman_spread_entries two_task_evaluation row_scaled [2; 3] 1%nat 2%nat).
  - reflexivity.
  - reflexivity.
  - apply le_n.
  - split; [reflexivity | repeat constructor].
Defined.

(** Witness of X12: the row (2, 3) applied to an example of three tasks. *)
Lemma Zelikman_apply_task_mismatch_witness :
  apply_calibration ZelikmanCalibrator three_task_evaluation row_scaled =
  (Raise broadcast_error, row_scaled).
Proof.
  apply (Zelikman_apply_task_mismatch three_task_evaluation row_scaled [2; 3]
           1%nat 3%nat).
  - reflexivity.
  - apply le_n.
  - split; [reflexivity | repeat constructor].
  - apply le_S, le_n.
  - apply le_n.
  - discriminate.
Defined.

(** Witness of X13: the two Z-scaling calibrators fitted on the one-task
    set. *)
Lemma interval_spread_is_stdev_spread_times_quantile_witness :
  fst (apply_calibration ZScalingCalibrator evaluation_predictor
         (mkState fitted_zscaling_interval [])) =
  rmap (scale_spread
          (interval_multiplier unit unit erfinv_stand_in t_ppf_stand_in
             ZScalingCalibrator
             (one_task_kwargs "stdev" "regression" five_models)))
    (fst (apply_calibration ZScalingCalibrator evaluation_predictor
            (mkState fitted_zscaling []))).
Proof.
  apply (interval_spread_is_stdev_spread_times_quantile unit unit
           one_task_builder fmin_at_start erfinv_stand_in t_pdf_stand_in
           t_ppf_stand_in ZScalingCalibrator
           (one_task_kwargs "stdev" "regression" five_models)
           fitted_zscaling fitted_zscaling_interval evaluation_predictor []).
  - discriminate.
  - exact fitted_zscaling_constructed.
  - exact fitted_zscaling_interval_constructed.
Defined.

Lemma two_task_variances_positive :
  forall i j, (i < 2)%nat -> (j < 2)%nat ->
    0 < entry (get_uncal_vars two_task_predictor) i j.
Proof.
  intros i j Hi Hj.
  destruct i as [|[|i]]; [| |lia]; destruct j as [|[|j]]; try lia;
    cbn; lra.
Qed.



(** Witness of X16: the Gaussian objective on the two-task set at the
    scales (1, 2). *)
Lemma ZScaling_objective_is_gaussian_nll_witness :
  ZScaling_objective (Array2 (get_uncal_vars two_task_predictor))
    (Array2 (zip_with2 Rminus (get_uncal_preds two_task_predictor)
               (targets two_task_data)))
    (Array1 [1; 2]) =
  Ok (Array1 (map (gaussian_nll 2 (get_uncal_preds two_task_predictor)
                     (targets two_task_data)
                     (get_uncal_vars two_task_predictor) [1; 2])
                (seq 0 2))).
Proof.
  apply (ZScaling_objective_is_gaussian_nll 2%nat 2%nat
           (get_uncal_preds two_task_predictor) (targets two_task_data)
           (get_uncal_vars two_task_predictor) [1; 2]).
  - apply le_S, le_n.
  - apply two_task_shapes.
  - apply two_task_shapes.
  - apply two_task_shapes.
  - reflexivity.
Defined.

(** Witness of X17: the Z-scaling fit on the one-task set. *)
Lemma ZScaling_calibrate_calls_fmin_witness :
  calibrate fmin_at_start erfinv_stand_in t_pdf_stand_in t_ppf_stand_in
    ZScalingCalibrator
    (ready_to_calibrate unit unit
       (one_task_kwargs "stdev" "regression" five_models) one_task_predictor) =
  store_fit unit unit (one_task_kwargs "stdev" "regression" five_models)
    one_task_predictor
    (fun s => s * erfinv_stand_in (IZR 95 / 100) * sqrt 2)
    (fmin_at_start
       (ZScaling_objective
          (Array2 (get_uncal_vars one_task_predictor))
          (Array2 (zip_with2 Rminus (get_uncal_preds one_task_predictor)
                     (targets one_task_data))))
       (Array2 [initial_scales 3 1 (get_uncal_preds one_task_predictor)
                  (targets one_task_data)
                  (fun i t => sqrt (entry (get_uncal_vars one_task_predictor) i t))])).
Proof.
  apply (ZScaling_calibrate_calls_fmin unit unit fmin_at_start erfinv_stand_in
           t_pdf_stand_in t_ppf_stand_in
           (one_task_kwargs "stdev" "regression" five_models)
           one_task_predictor 3%nat 1%nat).
  - apply le_S, le_S, le_n.
  - apply one_task_shapes.
  - apply one_task_shapes.
  - apply one_task_shapes.
Defined.

(** Witness of X18: the Student t objective on the two-task set with four
    degrees of freedom at the scales (1, 2). *)
Lemma TScaling_objective_is_student_nll_witness :
  TScaling_objective t_pdf_stand_in
    (Array2 (map (map sqrt)
               (map (map (fun x => x / 4))
                  (get_uncal_vars two_task_predictor))))
    (Array2 (zip_with2 Rminus (get_uncal_preds two_task_predictor)
               (targets two_task_data)))
    4 (Array1 [1; 2]) =
  Ok (Array1 (map (student_nll t_pdf_stand_in 2
                     (get_uncal_preds two_task_predictor)
                     (targets two_task_data)
                     (get_uncal_vars two_task_predictor) 4 [1; 2])
                (seq 0 2))).
Proof.
  apply (TScaling_objective_is_student_nll t_pdf_stand_in 2%nat 2%nat
           (get_uncal_preds two_task_predictor) (targets two_task_data)
           (get_uncal_vars two_task_predictor) 4 [1; 2]).
  - apply le_S, le_n.
  - apply two_task_shapes.
  - apply two_task_shapes.
  - apply two_task_shapes.
  - reflexivity.
Defined.

(** Witness of X19: the T-scaling fit on the one-task set with five
    models. *)
Lemma TScaling_calibrate_calls_fmin_witness :
  calibrate fmin_at_start erfinv_stand_in t_pdf_stand_in t_ppf_stand_in
    TScalingCalibrator
    (ready_to_calibrate unit unit
       (one_task_kwargs "interval" "regression" five_models)
       one_task_predictor) =
  store_fit unit unit (one_task_kwargs "interval" "regression" five_models)
    one_task_predictor
    (fun s => s * t_ppf_stand_in ((IZR 95 / 100 + 1) / 2) (IZR (5 - 1)))
    (fmin_at_start
       (TScaling_objective t_pdf_stand_in
          (Array2 (map (map sqrt)
                     (map (map (fun x => x / IZR (5 - 1)))
                        (get_uncal_vars one_task_predictor))))
          (Array2 (zip_with2 Rminus (get_uncal_preds one_task_predictor)
                     (targets one_task_data)))
          (IZR (5 - 1)))
       (Array2 [initial_scales 3 1 (get_uncal_preds one_task_predictor)
                  (targets one_task_data)
                  (fun i t =>
                     sqrt (entry (get_uncal_vars one_task_predictor) i t
                           / IZR (5 - 1)))])).
Proof.
  apply (TScaling_calibrate_calls_fmin unit unit fmin_at_start erfinv_stand_in
           t_pdf_stand_in t_ppf_stand_in
           (one_task_kwargs "interval" "regression" five_models)
           one_task_predictor 3%nat 1%nat).
  - apply le_S, le_S, le_n.
  - apply one_task_shapes.
  - apply one_task_shapes.
  - apply one_task_shapes.
Defined.


(** Witness of X21: the fitted calibrator of five models. *)
Lemma TScaling_spread_is_ZScaling_spread_over_sqrt_df_witness :
  fst (apply_calibration TScalingCalibrator evaluation_predictor
         (mkState fitted_zscaling [])) =
  rmap (scale_spread (/ sqrt (IZR (5 - 1))))
    (fst (apply_calibration ZScalingCalibrator evaluation_predictor
            (mkState fitted_zscaling []))).
Proof.
  apply (TScaling_spread_is_ZScaling_spread_over_sqrt_df evaluation_predictor
           (mkState fitted_zscaling []) 5%Z).
  - reflexivity.
  - reflexivity.
Defined.

(** Witness of X5: the fitted Z-scaling calibrator of the one-task set and
    the Zelikman calibrator of the two-task set. *)
Lemma fitted_scaling_shape_witness :
  (exists x : R, scaling fitted_zscaling = Some (Scalar x)) /\
  (exists (c : Calibrator) (s : ndarray),
     new two_task_builder fmin_at_start erfinv_stand_in t_pdf_stand_in
       t_ppf_stand_in ZelikmanCalibrator (two_task_kwargs_at 95) = Ok c /\
     scaling c = Some s /\
     np_shape s = [1%nat; 2%nat]).
Proof.
  split.
  - apply (proj1 (fitted_scaling_shape unit unit one_task_builder
                    fmin_at_start erfinv_stand_in t_pdf_stand_in
                    t_ppf_stand_in
                    (one_task_kwargs "stdev" "regression" five_models))
                 ZScalingCalibrator fitted_zscaling).
    + discriminate.
    + exact fitted_zscaling_constructed.
  - apply (proj2 (fitted_scaling_shape unit unit two_task_builder
                    fmin_at_start erfinv_stand_in t_pdf_stand_in
                    t_ppf_stand_in (two_task_kwargs_at 95))
                 two_task_predictor 2%nat 2%nat).
    + reflexivity.
    + reflexivity.
    + apply le_S, le_n.
    + split; discriminate.
    + apply two_task_shapes.
    + apply two_task_shapes.
    + apply two_task_shapes.
Defined.

Definition negatively_scaled : state :=
  mkState (set_scaling (Scalar (-1)) object) [].

(** Witness of X8: the row (2, 3) gives a non-negative spread, the scalar
    -1 a negative one. *)
Lemma spread_sign_follows_scaling_witness :
  np_all (fun x => 0 <= x)
    (snd (get_uncal_preds two_task_evaluation,
          Array2 [[sqrt 4 * 2; sqrt 9 * 3]])) /\
  (exists x : R,
     fst (apply_calibration ZScalingCalibrator
            (mkUncertaintyPredictor [[7]] [[4]]) negatively_scaled) =
       Ok ([[7]], Array2 [[x]]) /\
     x < 0).
Proof.
  split.
  - apply (proj1 (spread_sign_follows_scaling ZelikmanCalibrator
                    two_task_evaluation row_scaled)
                 (Array2 [[2; 3]])).
    + reflexivity.
    + cbn. repeat constructor; lra.
    + reflexivity.
  - apply (proj2 (spread_sign_follows_scaling ZScalingCalibrator
                    two_task_evaluation negatively_scaled)
                 (-1) 4 [[7]]).
    + reflexivity.
    + lra.
    + lra.
Defined.
